(** * sportsbet.soccer.optimization: season splitter and capital simulation

    A shallow embedding of [src/sportsbet/soccer/optimization.py]:

    - [SeasonTimeSeriesSplit]: the season-bounded walk-forward cross-validator
      ([_generate_season_indices], [split], [get_n_splits]);
    - [BettingAgent.backtest]: the loop that drives an estimator over the folds;
    - [BettingAgent.calculate_backtest_stats]: the sequential capital / stake
      simulation with its credit ceiling and its early exit;
    - [TrainingData]: the validation of [leagues] in [fetch_training_data],
      and the columns, the target and the odds of [load_modeling_data].

    Python exceptions are values of [exception]; a call that may raise returns
    a [result].  Collaborators that live outside the file (the estimator,
    [total_profit_score], [precision_score], [train_test_split], the progress
    bar) are section variables. *)

From Stdlib Require Import List ZArith Lia Bool Arith PeanoNat.
From Stdlib Require Import QArith Qround Floats.
From Stdlib Require String Ascii.
Import ListNotations.
Import String.StringSyntax.
Delimit Scope string_scope with string.

Close Scope Q_scope.

(** ** Exceptions and results *)

Inductive exception : Type :=
| IndexError          (* [a[0]] on an empty array *)
| ValueError          (* raised by the validation helpers of the libraries *)
| FileNotFoundError.  (* raised by [load_modeling_data] *)

(** The name of the class of an exception. *)
Definition class_name (e : exception) : String.string :=
  match e with
  | IndexError => "IndexError"%string
  | ValueError => "ValueError"%string
  | FileNotFoundError => "FileNotFoundError"%string
  end.

Inductive result (A : Type) : Type :=
| Ok (a : A)
| Raise (e : exception).

Arguments Ok {A} a.
Arguments Raise {A} e.

Definition bind {A B : Type} (r : result A) (k : A -> result B) : result B :=
  match r with
  | Ok a => k a
  | Raise e => Raise e
  end.

Notation "x <- c ;; k" := (bind c (fun x => k))
  (at level 61, c at next level, right associativity).
Notation "' p <- c ;; k" := (bind c (fun x => let 'p := x in k))
  (at level 61, p pattern, c at next level, right associativity).

Definition raises {A : Type} (r : result A) : Prop :=
  exists e, r = Raise e.

(** ** Entries of an array *)

(** What the validation of an array asks of an entry: [np.isfinite], false
    on [nan] and on the infinities.  Exact numbers are always finite;
    binary64 entries are tested. *)
Class Entry (V : Type) : Type := {
  isfinite : V -> bool
}.

#[export] Instance unit_Entry : Entry unit := {| isfinite := fun _ => true |}.
#[export] Instance bool_Entry : Entry bool := {| isfinite := fun _ => true |}.
#[export] Instance Z_Entry : Entry Z := {| isfinite := fun _ => true |}.
#[export] Instance Q_Entry : Entry Q := {| isfinite := fun _ => true |}.
#[export] Instance float_Entry : Entry float :=
  {| isfinite := PrimFloat.is_finite |}.

(** ** The season time-series cross-validator *)

Module SeasonTimeSeriesSplit.

(** The parameters stored by [__init__]. *)
Record t : Type := mk {
  test_year : Z;
  max_day_range : Z
}.

(** One yielded pair [(train_indices, test_indices)]. *)
Definition fold : Type := (list nat * list nat)%type.

(** [np.arange(lo, hi)]: empty when [hi <= lo]. *)
Definition arange (lo hi : nat) : list nat := seq lo (hi - lo).

(** The walk of [split] over the season indices, from the current
    [start_ind]; the list of the pairs it yields, in order.  The days are
    integers and their difference is the integer difference: that is what
    numpy computes, in any dtype that holds the days, for two days in
    order, so what is proved about the outcome of the comparison is stated
    for a day column in non-decreasing order (or does not depend on it). *)
Fixpoint split_loop (days_ : list Z) (max_day_range : Z)
         (start_ind : nat) (season_indices : list nat) : list fold :=
  match season_indices with
  | [] => []
  | ind :: rest =>
      if (nth ind days_ 0 - nth start_ind days_ 0 >=? max_day_range)%Z
      then (arange 0 start_ind, arange start_ind ind)
             :: split_loop days_ max_day_range ind rest
      else split_loop days_ max_day_range start_ind rest
  end.

(** The walk of [get_n_splits], with its counter. *)
Fixpoint n_splits_loop (days_ : list Z) (max_day_range : Z)
         (start_ind n_splits : nat) (season_indices : list nat) : nat :=
  match season_indices with
  | [] => n_splits
  | ind :: rest =>
      if (nth ind days_ 0 - nth start_ind days_ 0 >=? max_day_range)%Z
      then n_splits_loop days_ max_day_range ind (n_splits + 1) rest
      else n_splits_loop days_ max_day_range start_ind n_splits rest
  end.

(** [season_indices[0]]: numpy raises [IndexError] on an empty array. *)
Definition first_index (season_indices : list nat) : result nat :=
  match season_indices with
  | [] => Raise IndexError
  | ind :: _ => Ok ind
  end.

(** Day column in non-decreasing order (the sample store's invariant). *)
Fixpoint non_decreasing (days : list Z) : bool :=
  match days with
  | [] => true
  | d :: rest =>
      match rest with
      | [] => true
      | d' :: _ => (d <=? d')%Z && non_decreasing rest
      end
  end.

Section Array.

(** The entries of the feature columns; the splitter itself never looks at
    them, the validation of [X] does. *)
Context {V : Type} {entry : Entry V}.

(** A row of [X]: the day [X[i, 0]] and the other columns [X[i, 1:]].  The
    day column holds integer day offsets. *)
Definition row : Type := (Z * list V)%type.
Definition array : Type := list row.

(** [X[:, 0]] *)
Definition column0 (X : array) : list Z := map fst X.

Definition _num_samples (X : array) : nat := length X.

(** The rows of a 2-d array all have the same number of columns. *)
Definition rectangular (X : array) : bool :=
  match X with
  | [] => true
  | r :: rest =>
      forallb (fun r' => length (snd r') =? length (snd r)) rest
  end.

(** No entry of [X] is [nan] or infinite (the days are integers). *)
Definition all_finite (X : array) : bool :=
  forallb (fun r => forallb isfinite (snd r)) X.

(** [check_array(X, dtype=None)]: a 2-d array whose entries are all finite,
    with at least one sample (the day column is the one feature it needs);
    [ValueError] otherwise. *)
Definition check_array (X : array) : result array :=
  if rectangular X && all_finite X && negb (_num_samples X =? 0)
  then Ok X
  else Raise ValueError.

(** The season window [[365 * (test_year - 1), 365 * test_year)]. *)
Definition start_day (self : t) : Z := 365 * (test_year self - 1).
Definition end_day (self : t) : Z := 365 * test_year self.

Definition in_season (self : t) (day : Z) : bool :=
  (day >=? start_day self)%Z && (day <? end_day self)%Z.

(** [_generate_season_indices]: the value it stores in [self.days_] and the
    season indices it returns.  [self.days_] is written here and read only
    by the walk of the same call, so it is passed along with the result. *)
Definition _generate_season_indices (self : t) (X : array)
  : result (list Z * list nat) :=
  X <- check_array X ;;
  let days_ := column0 X in
  let indices := seq 0 (_num_samples X) in
  let season_indices :=
    filter (fun i => in_season self (nth i days_ 0%Z)) indices in
  Ok (days_, season_indices).

(** [split]: the pairs the generator yields, in order.  The generator can
    raise only before its first [yield] (in [check_array] or at
    [season_indices[0]]), so the outcome of iterating it is either an
    exception or the whole list of pairs. *)
Definition split (self : t) (X : array) : result (list fold) :=
  '(days_, season_indices) <- _generate_season_indices self X ;;
  start_ind <- first_index season_indices ;;
  Ok (split_loop days_ (max_day_range self) start_ind season_indices).

Definition get_n_splits (self : t) (X : array) : result nat :=
  '(days_, season_indices) <- _generate_season_indices self X ;;
  start_ind <- first_index season_indices ;;
  Ok (n_splits_loop days_ (max_day_range self) start_ind 0 season_indices).

(** The day of sample [i]. *)
Definition day (X : array) (i : nat) : Z := nth i (column0 X) 0%Z.

(** No look-ahead leakage in one fold: every training day is strictly
    before every test day. *)
Definition no_leakage (X : array) (f : fold) : Prop :=
  forall i j, In i (fst f) -> In j (snd f) -> (day X i < day X j)%Z.

End Array.

End SeasonTimeSeriesSplit.

(** ** Numbers of the capital simulation *)

(** The simulation computes with Python floats.  It is written once over the
    operations it uses; [fgt_irrefl] is the only law the proofs need, and IEEE
    comparison has it ([nan > nan] is false as well).  [Q_Number] gives exact
    rationals, [float_Number] binary64. *)
Module Num.

Class Number (F : Type) : Type := {
  f0 : F;                      (* 0.0 *)
  f1 : F;                      (* 1.0 *)
  fadd : F -> F -> F;          (* x + y *)
  fmul : F -> F -> F;          (* x * y *)
  fdiv : F -> F -> F;          (* x / y *)
  fpow : F -> F -> F;          (* x ** y *)
  of_int : Z -> F;             (* an int operand promoted to float *)
  flt : F -> F -> bool;        (* x < y *)
  fgt : F -> F -> bool;        (* x > y *)
  feq : F -> F -> bool;        (* x == y *)
  fgt_irrefl : forall x, fgt x x = false
}.

End Num.

Import Num.

(** ** The betting agent *)

Module BettingAgent.

Section Agent.

Context {F : Type} {num : Number F}.

(** A fold result [(y_test, y_pred)]: labels and prediction scores. *)
Definition fold_result : Type := (list Z * list F)%type.

(** A row of the statistics frame.  [np.nan] in the precision column is
    [None]. *)
Record statistic : Type := mk_statistic {
  capital : F;
  profit : F;
  bet_amount : F;
  n_bets : Z;
  n_matches : Z;
  precision : option F
}.

(** *** [calculate_backtest_stats] *)

Section Stats.

(** Scoring collaborators: [sportsbet.total_profit_score] and
    [sklearn.metrics.precision_score]. *)
Variable total_profit_score : list Z -> list F -> F.
Variable precision_score : list Z -> list Z -> F.

Variable bet_factor : F.
Variable credit_exponent : F.

(** The local variables of the method that live across iterations. *)
Record locals : Type := mk_locals {
  statistics : list statistic;
  precisions : list (option F);
  l_capital : F;
  l_bet_amount : F;
  y_test_all : list Z;
  y_pred_all : list F
}.

Definition initial : locals :=
  mk_locals [] [] f1 f1 [] [].

(** [(y_pred > 0).astype(int)] *)
Definition binarize (y_pred : list F) : list Z :=
  map (fun p => if fgt p f0 then 1%Z else 0%Z) y_pred.

Definition sumZ (l : list Z) : Z := fold_right Z.add 0%Z l.

(** One pass through the body of the [for] loop, up to and including
    [statistics.append(statistic)]. *)
Definition body (st : locals) (r : fold_result) : locals :=
  let '(y_test, y_pred) := r in
  let y_test_all := y_test ++ y_test_all st in
  let y_pred_all := y_pred ++ y_pred_all st in
  let y_pred_bin := binarize y_pred in
  let n_bets := sumZ y_pred_bin in
  let n_matches := Z.of_nat (length y_pred) in
  let precision :=
    if (n_bets >? 0)%Z then Some (precision_score y_test y_pred_bin)
    else None in
  let precisions := precisions st ++ [precision] in
  let profit :=
    if (n_bets >? 0)%Z
    then fdiv (fmul (l_bet_amount st) (total_profit_score y_test y_pred))
              (of_int n_bets)
    else f0 in
  let capital := fadd (l_capital st) profit in
  let bet_amount :=
    if flt profit f0 then fmul (l_bet_amount st) bet_factor else f1 in
  let max_credit := fadd capital (fpow bet_factor credit_exponent) in
  let bet_amount :=
    if fgt bet_amount max_credit then max_credit else bet_amount in
  let statistic :=
    mk_statistic capital profit bet_amount n_bets n_matches precision in
  mk_locals (statistics st ++ [statistic]) precisions capital bet_amount
            y_test_all y_pred_all.

(** The [for] loop with its [break]. *)
Fixpoint loop (st : locals) (backtest_results_ : list fold_result) : locals :=
  match backtest_results_ with
  | [] => st
  | r :: rest =>
      let st := body st r in
      if feq (l_bet_amount st) f0 then st else loop st rest
  end.

(** [np.nanmean]: the mean of the entries that are not [nan], and [nan] when
    there is none. *)
Definition nanmean (l : list (option F)) : option F :=
  let defined :=
    flat_map (fun o => match o with Some x => [x] | None => [] end) l in
  match defined with
  | [] => None
  | _ :: _ =>
      Some (fdiv (fold_left fadd defined f0)
                 (of_int (Z.of_nat (length defined))))
  end.

(** What the call leaves behind: the returned frame and the two attributes
    it sets. *)
Record stats : Type := mk_stats {
  frame : list statistic;
  profit_per_bet_ : F;
  precision_ : option F
}.

(** [y_pred_all.size] after the loop: the divisor of [profit_per_bet_]. *)
Definition divisor (backtest_results_ : list fold_result) : nat :=
  length (y_pred_all (loop initial backtest_results_)).

Definition calculate_backtest_stats
           (backtest_results_ : list fold_result) : stats :=
  let st := loop initial backtest_results_ in
  mk_stats (statistics st)
           (fdiv (total_profit_score (y_test_all st) (y_pred_all st))
                 (of_int (Z.of_nat (length (y_pred_all st)))))
           (nanmean (precisions st)).

(** The same body run over every fold without the [break]: the states the
    simulation would go through, used to say at which fold the stake first
    becomes zero. *)
Fixpoint trajectory (st : locals) (backtest_results_ : list fold_result)
  : list locals :=
  match backtest_results_ with
  | [] => []
  | r :: rest => let st := body st r in st :: trajectory st rest
  end.

(** The stake after the clamp is zero at fold [k] (counted from 1) and at
    no earlier fold. *)
Definition first_zero_at (backtest_results_ : list fold_result) (k : nat)
  : Prop :=
  exists pre st post,
    trajectory initial backtest_results_ = pre ++ st :: post /\
    S (length pre) = k /\
    feq (l_bet_amount st) f0 = true /\
    forall st', In st' pre -> feq (l_bet_amount st') f0 = false.

End Stats.

(** *** [backtest] *)

Section Backtest.

Import SeasonTimeSeriesSplit.

(** Entries of the feature and odds columns, the classifier handed to the
    agent, the wrapped estimator, the [validation_size] value and the other
    fitting parameters. *)
Context {V Clf Est Size Params Bar : Type} {entry : Entry V}.

(** The estimator collaborators: [sportsbet.ProfitEstimator], the default
    [DummyClassifier(strategy='constant', constant=1)], [fit] (which returns
    the fitted estimator) and [predict]. *)
Variable ProfitEstimator : Clf -> Est.
Variable DummyClassifier_constant_1 : Clf.

(** [self.fit_params_]: the entry [validation_size], the entry
    [xgbclassifier__eval_set] that the loop writes, and the other entries. *)
Record fit_params : Type := mk_fit_params {
  entry_validation_size : option Size;
  entry_xgbclassifier__eval_set : option (list (list V) * list Z);
  entry_others : Params
}.

(** The empty dict. *)
Variable no_params : Params.
Definition empty_fit_params : fit_params :=
  mk_fit_params None None no_params.

Variable fit :
  Est -> list (list V) -> list Z -> fit_params -> result Est.
Variable predict : Est -> list (list V) -> result (list F).

(** [train_test_split(X_train, y_train, test_size=validation_size,
    shuffle=False)], returning [(X_train, X_val, y_train, y_val)]. *)
Variable train_test_split :
  list (list V) -> list Z -> Size ->
  result (list (list V) * list (list V) * list Z * list Z).

(** [progressbar.ProgressBar(min_value=, max_value=)] and [bar.update]. *)
Variable ProgressBar : Z -> Z -> result Bar.
Variable update : Bar -> Z -> result Bar.

(** The attributes that [backtest] sets on the agent. *)
Record agent : Type := mk_agent {
  estimator_ : Est;
  fit_params_ : fit_params;
  backtest_results_ : list fold_result
}.

(** [np.hstack((X, odds.reshape(-1, 1)))] *)
Definition hstack_column (X : @array V) (odds : list V)
  : result (@array V) :=
  if length X =? length odds
  then Ok (map (fun ro => (fst (fst ro), snd (fst ro) ++ [snd ro]))
               (combine X odds))
  else Raise ValueError.

(** [X[indices, 1:]] and [y[indices]]; the indices come from the splitter
    and are positions of [X]. *)
Definition take_rows (X : @array V) (indices : list nat) : list (list V) :=
  map (fun i => snd (nth i X (0%Z, []))) indices.

Definition take (y : list Z) (indices : list nat) : list Z :=
  map (fun i => nth i y 0%Z) indices.

(** The body of the cross-validation loop for the fold at position [ind]. *)
Definition run_fold (X : @array V) (y : list Z)
           (validation_size : option Size)
           (self : agent) (bar : Bar) (ind : nat) (f : fold)
  : result (agent * Bar) :=
  let '(train_indices, test_indices) := f in
  let X_train := take_rows X train_indices in
  let X_test := take_rows X test_indices in
  let y_train := take y train_indices in
  let y_test := take y test_indices in
  '(X_train, y_train, params) <-
    match validation_size with
    | Some size =>
        '(X_train, X_val, y_train, y_val) <-
          train_test_split X_train y_train size ;;
        Ok (X_train, y_train,
            mk_fit_params (entry_validation_size (fit_params_ self))
                          (Some (map (@removelast V) X_val, y_val))
                          (entry_others (fit_params_ self)))
    | None => Ok (X_train, y_train, fit_params_ self)
    end ;;
  est <- fit (estimator_ self) X_train y_train params ;;
  y_pred <- predict est X_test ;;
  let self :=
    mk_agent est params (backtest_results_ self ++ [(y_test, y_pred)]) in
  bar <- update bar (Z.of_nat ind + 1) ;;
  Ok (self, bar).

(** [for ind, (train_indices, test_indices) in enumerate(indices)] *)
Fixpoint run_folds (X : @array V) (y : list Z)
         (validation_size : option Size)
         (self : agent) (bar : Bar) (ind : nat) (indices : list fold)
  : result agent :=
  match indices with
  | [] => Ok self
  | f :: rest =>
      '(self, bar) <- run_fold X y validation_size self bar ind f ;;
      run_folds X y validation_size self bar (S ind) rest
  end.

(** [backtest].  [loaded] is the outcome of [load_modeling_data]: the triple
    [(X, y, odds)] read from the training file, or [FileNotFoundError]. *)
Definition backtest (loaded : result (@array V * list Z * list V))
           (estimator : option Clf) (fit_params0 : option fit_params)
           (test_year max_day_range : Z) : result agent :=
  '(X, y, odds) <- loaded ;;
  X <- hstack_column X odds ;;
  let estimator_ :=
    match estimator with
    | Some clf => ProfitEstimator clf
    | None => ProfitEstimator DummyClassifier_constant_1
    end in
  let fit_params_ :=
    match fit_params0 with
    | None => empty_fit_params
    | Some p => p
    end in
  (* [pop('validation_size')] when the entry is there *)
  let validation_size := entry_validation_size fit_params_ in
  let fit_params_ :=
    mk_fit_params None (entry_xgbclassifier__eval_set fit_params_)
                  (entry_others fit_params_) in
  indices <- split (mk test_year max_day_range) X ;;
  bar <- ProgressBar 1 (Z.of_nat (length indices)) ;;
  run_folds X y validation_size (mk_agent estimator_ fit_params_ []) bar 0
            indices.

End Backtest.

End Agent.

End BettingAgent.

(** ** The data side of the agent *)

(** The parts of [fetch_training_data] and [load_modeling_data] that are
    computations of their own: the validation of [leagues], the choice of
    the columns of [X], the target and the odds column.  Fetching, merging
    and reading files are left to the libraries.  A [KeyError] is [None]. *)
Module TrainingData.

Import String.StringSyntax.
Local Open Scope string_scope.

Definition str : Type := String.string.

(** The value given for [leagues]: a string or a list of strings. *)
Inductive leagues_arg : Type :=
| Name (s : str)
| Ids (l : list str).

(** [x in xs] on strings. *)
Definition mem (x : str) (xs : list str) : bool :=
  existsb (String.eqb x) xs.

(** [set(leagues)]: the elements of a list, the characters of a string. *)
Definition elements (leagues : leagues_arg) : list str :=
  match leagues with
  | Name s =>
      map (fun c => String.String c String.EmptyString)
          (String.list_ascii_of_string s)
  | Ids l => l
  end.

(** [leagues in ('all', 'main')] *)
Definition in_all_main (leagues : leagues_arg) : bool :=
  match leagues with
  | Name s => String.eqb s "all" || String.eqb s "main"
  | Ids _ => false
  end.

Section Fetch.

(** [LEAGUES_MAPPING.values()], pairs whose first component is the league
    id; and what [fetch_training_data] does once the input is accepted. *)
Context {A : Type}.
Variable LEAGUES_MAPPING_values : list (str * A).
Variable fetch_merge_save : leagues_arg -> result unit.

Definition valid_leagues : list str := map fst LEAGUES_MAPPING_values.

Definition fetch_training_data (leagues : leagues_arg) : result unit :=
  if negb (in_all_main leagues)
     && negb (forallb (fun x => mem x valid_leagues) (elements leagues))
  then Raise ValueError
  else fetch_merge_save leagues.

End Fetch.

(** [frame.drop(columns=names)] on the column labels: [KeyError] when a
    label is missing. *)
Definition drop (names columns : list str) : option (list str) :=
  if forallb (fun n => mem n columns) names
  then Some (filter (fun c => negb (mem c names)) columns)
  else None.

Definition dropped_columns : list str :=
  ["HomeMaximumOdd"; "AwayMaximumOdd"; "DrawMaximumOdd"; "HomeGoals";
   "AwayGoals"].

(** The column labels of [X] in [load_modeling_data]:
    [X = training_data.drop(columns=...)] and then
    [X = X[['Day'] + X.columns[:-1].tolist()]]. *)
Definition modeling_columns (columns : list str) : option (list str) :=
  match drop dropped_columns columns with
  | None => None
  | Some X_columns =>
      let selected := "Day" :: removelast X_columns in
      if forallb (fun c => mem c X_columns) selected
      then Some selected
      else None
  end.

(** [HomeGoals - AwayGoals] for one match; a goal count that is missing in
    the file is [nan] ([None]), and so is the difference. *)
Definition goal_difference (g : option Z * option Z) : option Z :=
  match g with
  | (Some home, Some away) => Some (home - away)%Z
  | _ => None
  end.

(** ['H' if sign > 0 else 'D' if sign == 0 else 'A']; both tests are false
    of [nan]. *)
Definition match_result (sign : option Z) : str :=
  match sign with
  | Some z => if (z >? 0)%Z then "H" else if (z =? 0)%Z then "D" else "A"
  | None => "A"
  end.

(** The target [y]: one row per match, from [(HomeGoals, AwayGoals)]. *)
Definition target (predicted_result : str)
           (goals : list (option Z * option Z)) : list Z :=
  map (fun g =>
         if String.eqb (match_result (goal_difference g)) predicted_result
         then 1%Z else 0%Z)
      goals.

(** The label of the odds column, looked up in the dict literal. *)
Definition odds_column (predicted_result : str) : option str :=
  if String.eqb predicted_result "H" then Some "HomeMaximumOdd"
  else if String.eqb predicted_result "A" then Some "AwayMaximumOdd"
  else if String.eqb predicted_result "D" then Some "DrawMaximumOdd"
  else None.

(** The target and the odds of [load_modeling_data], from the goals and the
    three columns of maximum odds. *)
Definition target_and_odds {V : Type} (predicted_result : str)
           (goals : list (option Z * option Z))
           (HomeMaximumOdd AwayMaximumOdd DrawMaximumOdd : list V)
  : option (list Z * list V) :=
  let y := target predicted_result goals in
  match odds_column predicted_result with
  | None => None
  | Some label =>
      Some (y,
            if String.eqb label "HomeMaximumOdd" then HomeMaximumOdd
            else if String.eqb label "AwayMaximumOdd" then AwayMaximumOdd
            else DrawMaximumOdd)
  end.

End TrainingData.

(** ** Two number systems *)

Module Instances.

(** Exact rationals.  [x ** y] is taken at the integer part of [y]; the
    simulation is only run here with integer exponents. *)
Definition Q_gt (x y : Q) : bool := negb (Qle_bool x y).

Lemma Q_gt_irrefl (x : Q) : Q_gt x x = false.
Proof.
  unfold Q_gt.
  assert (E : Qle_bool x x = true) by (apply Qle_bool_iff, Qle_refl).
  now rewrite E.
Qed.

#[export] Instance Q_Number : Number Q := {
  f0 := 0%Q;
  f1 := 1%Q;
  fadd := Qplus;
  fmul := Qmult;
  fdiv := Qdiv;
  fpow := fun x y => Qpower x (Qfloor y);
  of_int := inject_Z;
  flt := fun x y => Q_gt y x;
  fgt := Q_gt;
  feq := Qeq_bool;
  fgt_irrefl := Q_gt_irrefl
}.

(** IEEE 754 binary64, the floats of Python and numpy.  [pow] is the C
    library's, taken as a parameter. *)
Lemma SFltb_irrefl (s : SpecFloat.spec_float) : SpecFloat.SFltb s s = false.
Proof.
  unfold SpecFloat.SFltb.
  destruct s as [[] | [] | | [] m e]; simpl; try reflexivity;
    rewrite Z.compare_refl; simpl;
    rewrite ?Pos.compare_cont_refl, ?Pos.compare_refl; reflexivity.
Qed.

Lemma float_gt_irrefl (x : float) : PrimFloat.ltb x x = false.
Proof. rewrite FloatAxioms.ltb_spec. apply SFltb_irrefl. Qed.

Definition float_Number (pow : float -> float -> float) : Number float := {|
  f0 := 0%float;
  f1 := 1%float;
  fadd := PrimFloat.add;
  fmul := PrimFloat.mul;
  fdiv := PrimFloat.div;
  fpow := pow;
  of_int := fun z => PrimFloat.of_uint63 (Uint63.of_Z z);
  flt := PrimFloat.ltb;
  fgt := fun x y => PrimFloat.ltb y x;
  feq := PrimFloat.eqb;
  fgt_irrefl := float_gt_irrefl
|}.

End Instances.

(** ** Collaborators for the worked examples *)

Module Examples.

Import Instances.

(** A profit score that adds up the labels, and a constant precision: they
    stand in for [total_profit_score] and [precision_score] when the
    simulation is run on concrete numbers. *)
Definition label_sum_score (y_test : list Z) (y_pred : list Q) : Q :=
  inject_Z (fold_right Z.add 0%Z y_test).

Definition constant_precision (y_test y_pred_bin : list Z) : Q := 1%Q.

(** An estimator that learns nothing and predicts 1 for every row. *)
Definition constant_fit (est : unit) (X_train : list (list Q))
           (y_train : list Z) (params : @BettingAgent.fit_params Q Q unit)
  : result unit := Ok tt.

Definition constant_predict (est : unit) (X_test : list (list Q))
  : result (list Q) := Ok (map (fun _ => 1%Q) X_test).

(** A chronological split that keeps every row for training. *)
Definition keep_all_split (X_train : list (list Q)) (y_train : list Z)
           (size : Q)
  : result (list (list Q) * list (list Q) * list Z * list Z) :=
  Ok (X_train, [], y_train, []).

(** The progress bar of the progressbar2 package, which is not part of the
    repository: the constructor refuses a non-zero [max_value] below
    [min_value] ([if max_value and min_value > max_value: raise
    ValueError]), and [update] refuses a value outside the range. *)
Record progress_bar : Type := mk_bar {
  min_value : Z;
  max_value : Z;
  value : Z
}.

Definition ProgressBar (min_value max_value : Z) : result progress_bar :=
  if negb (max_value =? 0)%Z && (min_value >? max_value)%Z
  then Raise ValueError
  else Ok (mk_bar min_value max_value min_value).

Definition update (bar : progress_bar) (v : Z) : result progress_bar :=
  if (v <? min_value bar)%Z || (v >? max_value bar)%Z
  then Raise ValueError
  else Ok (mk_bar (min_value bar) (max_value bar) v).

(** [backtest] with these collaborators. *)
Definition backtest :=
  @BettingAgent.backtest Q Q unit unit Q unit progress_bar Q_Entry
    (fun clf => clf) tt tt constant_fit constant_predict keep_all_split
    ProgressBar update.

(** The simulation on rationals with the scores above. *)
Definition calculate_backtest_stats (bet_factor credit_exponent : Q) :=
  BettingAgent.calculate_backtest_stats
    label_sum_score constant_precision bet_factor credit_exponent.

End Examples.

(** * Properties of the splitter *)

Module SplitFacts.

Import SeasonTimeSeriesSplit.

(** [l1] is a prefix of [l2]. *)
Definition is_prefix (l1 l2 : list nat) : Prop :=
  exists tail, l2 = l1 ++ tail.

(** The indices of [l] go up (weakly) from [s]. *)
Fixpoint ascending_from (s : nat) (l : list nat) : Prop :=
  match l with
  | [] => True
  | x :: rest => s <= x /\ ascending_from x rest
  end.

(** The folds are chained from anchor [s]: each trains on everything before
    its anchor, tests from the anchor up to the next anchor. *)
Fixpoint chained (s : nat) (folds : list fold) : Prop :=
  match folds with
  | [] => True
  | f :: rest =>
      fst f = seq 0 s /\
      exists e, s <= e /\ snd f = seq s (e - s) /\ chained e rest
  end.

(** A small array for the examples: one row per day, no other column. *)
Definition days_only (days : list Z) : @array unit :=
  map (fun d => (d, [])) days.

(** Some sample lies in the season window. *)
Definition window_nonempty {V : Type} (self : t) (X : @array V) : Prop :=
  exists d, In d (column0 X) /\ in_season self d = true.

(** The outcome of [split] and of [get_n_splits] as functions of the day
    column and of whether [X] is a 2-d array. *)
Definition split_of_days (self : t) (ok : bool) (days : list Z)
  : result (list fold) :=
  if ok && negb (length days =? 0) then
    let season :=
      filter (fun i => in_season self (nth i days 0%Z))
             (seq 0 (length days)) in
    start_ind <- first_index season ;;
    Ok (split_loop days (max_day_range self) start_ind season)
  else Raise ValueError.

Definition n_splits_of_days (self : t) (ok : bool) (days : list Z)
  : result nat :=
  if ok && negb (length days =? 0) then
    let season :=
      filter (fun i => in_season self (nth i days 0%Z))
             (seq 0 (length days)) in
    start_ind <- first_index season ;;
    Ok (n_splits_loop days (max_day_range self) start_ind 0 season)
  else Raise ValueError.

(** *** Day column *)

Lemma non_decreasing_cons (d : Z) (days : list Z) :
  non_decreasing (d :: days) = true ->
  non_decreasing days = true /\ forall j, j < length days -> (d <= nth j days 0)%Z.
Proof.
  revert d. induction days as [|d' days IH]; intros d H.
  - split; [reflexivity | simpl; intros; lia].
  - change ((d <=? d')%Z && non_decreasing (d' :: days) = true) in H.
    apply andb_true_iff in H. destruct H as [Hle Hnd].
    apply Z.leb_le in Hle. split; [exact Hnd|].
    destruct (IH _ Hnd) as [_ Hall].
    intros [|j] Hj; simpl in *; [lia|].
    specialize (Hall j ltac:(lia)). lia.
Qed.

Lemma non_decreasing_nth (days : list Z) :
  non_decreasing days = true ->
  forall i j, i <= j -> j < length days -> (nth i days 0 <= nth j days 0)%Z.
Proof.
  induction days as [|d days IH]; intros H i j Hij Hj; [simpl in Hj; lia|].
  destruct (non_decreasing_cons _ _ H) as [Hnd Hall].
  destruct i as [|i], j as [|j]; simpl in *; try lia.
  - apply Hall. lia.
  - apply IH; [assumption | lia | lia].
Qed.

(** *** Season indices *)

Lemma ascending_from_weaken (s s' : nat) (l : list nat) :
  s <= s' -> ascending_from s' l -> ascending_from s l.
Proof. destruct l; simpl; intuition lia. Qed.

Lemma filter_seq_ascending (p : nat -> bool) (k i s : nat) :
  s <= i -> ascending_from s (filter p (seq i k)).
Proof.
  revert i s. induction k as [|k IH]; intros i s Hs; simpl; [exact I|].
  destruct (p i); simpl.
  - split; [exact Hs | apply IH; lia].
  - apply IH. lia.
Qed.

(** A predicate that is convex on a range selects a contiguous block. *)
Lemma filter_seq_contiguous (p : nat -> bool) (k i : nat) :
  (forall a b c, i <= a -> a <= b -> b <= c -> c < i + k ->
                 p a = true -> p c = true -> p b = true) ->
  exists a m, filter p (seq i k) = seq a m /\ (0 < m -> i <= a).
Proof.
  revert i. induction k as [|k IH]; intros i Hconv.
  - exists i, 0. split; [reflexivity | lia].
  - destruct (IH (S i)) as (a & m & Hf & Ha).
    { intros a b c Ha Hab Hbc Hc. apply Hconv; lia. }
    simpl. destruct (p i) eqn:Hpi.
    + destruct m as [|m].
      * exists i, 1. rewrite Hf. split; [reflexivity | lia].
      * specialize (Ha ltac:(lia)).
        assert (Hin : In a (filter p (seq (S i) k)))
          by (rewrite Hf; simpl; auto).
        apply filter_In in Hin. destruct Hin as [Hseq Hpa].
        apply in_seq in Hseq.
        assert (Hsi : p (S i) = true)
          by (apply (Hconv i (S i) a); (lia || assumption)).
        assert (Hin' : In (S i) (seq a (S m))).
        { rewrite <- Hf. apply filter_In. split; [apply in_seq; lia | exact Hsi]. }
        apply in_seq in Hin'.
        assert (a = S i) by lia. subst a.
        exists i, (S (S m)). rewrite Hf. split; [reflexivity | lia].
    + exists a, m. split; [exact Hf | intros; specialize (Ha ltac:(lia)); lia].
Qed.

Section Array.

Context {V : Type} {entry : Entry V}.
Implicit Types (X : @array V) (self : t).

Lemma check_array_ok X X' : check_array X = Ok X' -> X' = X.
Proof.
  unfold check_array. destruct (_ && _); [|discriminate].
  now intros [= <-].
Qed.

Lemma check_array_valid X :
  check_array X = Ok X -> rectangular X && all_finite X = true.
Proof.
  unfold check_array.
  destruct (rectangular X && all_finite X); [reflexivity|].
  cbn [andb]. discriminate.
Qed.

Lemma generate_ok self X days season :
  _generate_season_indices self X = Ok (days, season) ->
  check_array X = Ok X /\
  days = column0 X /\
  season = filter (fun i => in_season self (nth i (column0 X) 0%Z))
                  (seq 0 (length X)).
Proof.
  unfold _generate_season_indices.
  destruct (check_array X) as [X'|e] eqn:Hc; simpl; [|discriminate].
  apply check_array_ok in Hc as HX. subst X'.
  intros [= <- <-]. auto.
Qed.

Lemma generate_of_check self X :
  check_array X = Ok X ->
  _generate_season_indices self X
  = Ok (column0 X,
        filter (fun i => in_season self (nth i (column0 X) 0%Z))
               (seq 0 (length X))).
Proof. intros Hc. unfold _generate_season_indices. now rewrite Hc. Qed.

Lemma split_ok self X folds :
  split self X = Ok folds ->
  exists s0 rest,
    _generate_season_indices self X = Ok (column0 X, s0 :: rest) /\
    folds = split_loop (column0 X) (max_day_range self) s0 (s0 :: rest).
Proof.
  unfold split.
  destruct (_generate_season_indices self X) as [[days season]|e] eqn:Hg;
    simpl; [|discriminate].
  destruct (generate_ok _ _ _ _ Hg) as (_ & -> & _).
  destruct season as [|s0 rest]; simpl; [discriminate|].
  intros [= <-]. now exists s0, rest.
Qed.

Lemma in_season_spec self (d : Z) :
  in_season self d = true <-> (start_day self <= d < end_day self)%Z.
Proof.
  unfold in_season. rewrite andb_true_iff, Z.geb_le, Z.ltb_lt. tauto.
Qed.

Lemma season_contiguous self X :
  non_decreasing (column0 X) = true ->
  exists a m,
    filter (fun i => in_season self (nth i (column0 X) 0%Z))
           (seq 0 (length X)) = seq a m.
Proof.
  intros Hnd.
  destruct (filter_seq_contiguous
              (fun i => in_season self (nth i (column0 X) 0%Z))
              (length X) 0) as (a & m & Hf & _).
  - intros a b c _ Hab Hbc Hc Hpa Hpc.
    apply in_season_spec in Hpa, Hpc. apply in_season_spec.
    assert (Hlen : length (column0 X) = length X)
      by (unfold column0; apply length_map).
    pose proof (non_decreasing_nth _ Hnd a b Hab ltac:(lia)).
    pose proof (non_decreasing_nth _ Hnd b c Hbc ltac:(lia)).
    lia.
  - now exists a, m.
Qed.

End Array.

(** *** The walk *)

Lemma n_splits_loop_length (days : list Z) (mdr : Z) (inds : list nat) :
  forall start n,
    n_splits_loop days mdr start n inds
    = n + length (split_loop days mdr start inds).
Proof.
  induction inds as [|ind rest IH]; intros start n; simpl; [lia|].
  destruct (_ >=? _)%Z; rewrite IH; simpl; lia.
Qed.

Lemma split_loop_chained (days : list Z) (mdr : Z) (inds : list nat) :
  forall start,
    ascending_from start inds ->
    chained start (split_loop days mdr start inds).
Proof.
  induction inds as [|ind rest IH]; intros start Hasc; simpl; [exact I|].
  destruct Hasc as [Hle Hrest].
  destruct (_ >=? _)%Z.
  - simpl. split.
    + unfold arange. now rewrite Nat.sub_0_r.
    + exists ind. split; [exact Hle|]. split; [reflexivity|]. now apply IH.
  - apply IH. now apply ascending_from_weaken with ind.
Qed.

Lemma chained_consecutive (folds : list fold) :
  forall s k f1 f2,
    chained s folds ->
    nth_error folds k = Some f1 ->
    nth_error folds (S k) = Some f2 ->
    fst f2 = fst f1 ++ snd f1.
Proof.
  induction folds as [|f folds IH]; intros s k f1 f2 Hch H1 H2.
  - destruct k; discriminate.
  - destruct Hch as (Htr & e & Hse & Hte & Hrest).
    destruct k as [|k].
    + simpl in H1. injection H1 as <-.
      destruct folds as [|f' folds]; [discriminate|].
      simpl in H2. injection H2 as <-.
      destruct Hrest as (Htr' & _).
      rewrite Htr, Hte, Htr'.
      replace e with (s + (e - s)) at 1 by lia.
      now rewrite seq_app.
    + simpl in H1. now apply (IH e k f1 f2).
Qed.

(** With a positive day range and sorted days, a walk that has not let any
    day reach [days[start] + mdr] before position [i] yields only folds
    whose training days are strictly before their test days. *)
Lemma split_loop_no_leakage (days : list Z) (mdr : Z) :
  (0 < mdr)%Z ->
  non_decreasing days = true ->
  forall k i start,
    start <= i -> i + k <= length days ->
    (forall j, j < start -> (nth j days 0 < nth start days 0)%Z) ->
    (forall j, j < i -> (nth j days 0 < nth start days 0 + mdr)%Z) ->
    forall f, In f (split_loop days mdr start (seq i k)) ->
    forall x y, In x (fst f) -> In y (snd f) ->
                (nth x days 0 < nth y days 0)%Z.
Proof.
  intros Hmdr Hnd.
  induction k as [|k IH]; intros i start Hsi Hlen HA HB f Hf x y Hx Hy;
    simpl in Hf; [contradiction|].
  destruct (nth i days 0 - nth start days 0 >=? mdr)%Z eqn:Hc.
  - apply Z.geb_le in Hc. destruct Hf as [<- | Hf].
    + simpl in Hx, Hy. unfold arange in Hx, Hy.
      apply in_seq in Hx, Hy.
      pose proof (HA x ltac:(lia)).
      pose proof (non_decreasing_nth _ Hnd start y ltac:(lia) ltac:(lia)).
      lia.
    + apply (IH (S i) i ltac:(lia) ltac:(lia)) with (f := f); try assumption.
      * intros j Hj. specialize (HB j Hj). lia.
      * intros j Hj. destruct (Nat.eq_dec j i) as [-> | Hne]; [lia|].
        specialize (HB j ltac:(lia)). lia.
  - assert (Hlt : (nth i days 0 - nth start days 0 < mdr)%Z).
    { destruct (Z.geb_spec (nth i days 0 - nth start days 0)%Z mdr);
        [discriminate | lia]. }
    apply (IH (S i) start ltac:(lia) ltac:(lia)) with (f := f);
      try assumption.
    intros j Hj. destruct (Nat.eq_dec j i) as [-> | Hne]; [lia|].
    apply HB. lia.
Qed.



(** *** The claims about the splitter *)

Section Claims.

Context {V : Type} {entry : Entry V}.
Implicit Types (X : @array V) (self : t).

Lemma season_nonempty self X :
  check_array X = Ok X ->
  window_nonempty self X ->
  exists s0 rest,
    _generate_season_indices self X = Ok (column0 X, s0 :: rest).
Proof.
  intros Hc (d & Hin & Hd).
  rewrite (generate_of_check self X Hc).
  destruct (In_nth _ _ 0%Z Hin) as (i & Hi & Hnth).
  assert (Hlen : length (column0 X) = length X)
    by (unfold column0; apply length_map).
  assert (Hf : In i (filter (fun i => in_season self (nth i (column0 X) 0%Z))
                            (seq 0 (length X)))).
  { apply filter_In. split; [apply in_seq; lia | now rewrite Hnth]. }
  destruct (filter _ _) as [|s0 rest]; [contradiction|].
  now exists s0, rest.
Qed.

Lemma season_empty self X :
  (forall d, In d (column0 X) -> in_season self d = false) ->
  filter (fun i => in_season self (nth i (column0 X) 0%Z))
         (seq 0 (length X)) = [].
Proof.
  intros Hout.
  assert (Hlen : length (column0 X) = length X)
    by (unfold column0; apply length_map).
  destruct (filter _ _) as [|i rest] eqn:Hf; [reflexivity|].
  assert (Hin : In i (i :: rest)) by (simpl; auto).
  rewrite <- Hf in Hin. apply filter_In in Hin. destruct Hin as [Hi Hp].
  apply in_seq in Hi.
  rewrite Hout in Hp; [discriminate|].
  apply nth_In. lia.
Qed.

Lemma split_as_days self X :
  split self X
  = split_of_days self (rectangular X && all_finite X) (column0 X).
Proof.
  unfold split, split_of_days, _generate_season_indices, check_array,
    _num_samples.
  assert (Hlen : length (column0 X) = length X)
    by (unfold column0; apply length_map).
  rewrite Hlen.
  destruct (rectangular X && all_finite X && negb (length X =? 0));
    reflexivity.
Qed.

Lemma get_n_splits_as_days self X :
  get_n_splits self X
  = n_splits_of_days self (rectangular X && all_finite X) (column0 X).
Proof.
  unfold get_n_splits, n_splits_of_days, _generate_season_indices,
    check_array, _num_samples.
  assert (Hlen : length (column0 X) = length X)
    by (unfold column0; apply length_map).
  rewrite Hlen.
  destruct (rectangular X && all_finite X && negb (length X =? 0));
    reflexivity.
Qed.

End Claims.

(** C1, as the code has it: when [max_day_range] is positive and the day
    column is non-decreasing, every pair yielded by [split] keeps every
    training day strictly before every test day (so strictly before the
    smallest test day). *)
Theorem split_no_leakage {V : Type} {entry : Entry V} (self : t) (X : @array V)
        (folds : list fold) :
  (0 < max_day_range self)%Z ->
  non_decreasing (column0 X) = true ->
  split self X = Ok folds ->
  forall f, In f folds -> no_leakage X f.
Proof.
  intros Hmdr Hnd Hs f Hf.
  destruct (split_ok _ _ _ Hs) as (s0 & rest & Hg & ->).
  destruct (generate_ok _ _ _ _ Hg) as (_ & _ & Hseason).
  destruct (season_contiguous self X Hnd) as (a & m & Hcont).
  rewrite Hcont in Hseason.
  destruct m as [|m]; [discriminate|].
  simpl in Hseason. injection Hseason as -> Hrest.
  assert (Hlen : length (column0 X) = length X)
    by (unfold column0; apply length_map).
  assert (Hsub : forall i, In i (seq a (S m)) ->
                           i < length X /\
                           in_season self (nth i (column0 X) 0%Z) = true).
  { intros i Hi. rewrite <- Hcont in Hi. apply filter_In in Hi.
    destruct Hi as [Hi Hp]. apply in_seq in Hi. split; [lia | exact Hp]. }
  assert (Hbefore : forall j, j < a ->
                     (nth j (column0 X) 0 < nth a (column0 X) 0)%Z).
  { intros j Hj.
    destruct (Hsub a) as [Ha Hpa]; [apply in_seq; lia|].
    apply in_season_spec in Hpa.
    pose proof (non_decreasing_nth _ Hnd j a ltac:(lia) ltac:(lia)) as Hle.
    destruct (in_season self (nth j (column0 X) 0%Z)) eqn:Hpj.
    - assert (Hin : In j (seq a (S m))).
      { rewrite <- Hcont. apply filter_In.
        split; [apply in_seq; lia | exact Hpj]. }
      apply in_seq in Hin. lia.
    - assert (Hn : ~ (start_day self <= nth j (column0 X) 0 < end_day self)%Z).
      { intros Hin. apply in_season_spec in Hin. congruence. }
      lia. }
  intros x y Hx Hy. unfold day.
  change (a :: rest) with ([a] ++ rest) in Hf.
  rewrite Hrest in Hf. change ([a] ++ seq (S a) m) with (seq a (S m)) in Hf.
  apply (split_loop_no_leakage (column0 X) (max_day_range self) Hmdr Hnd
           (S m) a a) with (f := f); try assumption.
  - lia.
  - destruct (Hsub (a + m)) as [Hl _]; [apply in_seq; lia | lia].
  - intros j Hj. specialize (Hbefore j Hj). lia.
Qed.

(** C1, a run of the theorem: season 2, folds of at least 6 days. *)
Lemma split_no_leakage_witness :
  split (mk 2 6)
        (days_only [0; 1; 364; 365; 366; 370; 371; 372; 380; 800]%Z)
  = Ok [([0; 1; 2], [3; 4; 5]); ([0; 1; 2; 3; 4; 5], [6; 7])] /\
  (day (days_only [0; 1; 364; 365; 366; 370; 371; 372; 380; 800]%Z) 5
   < day (days_only [0; 1; 364; 365; 366; 370; 371; 372; 380; 800]%Z) 6)%Z.
Proof.
  split; [reflexivity|].
  apply (split_no_leakage (mk 2 6)
           (days_only [0; 1; 364; 365; 366; 370; 371; 372; 380; 800]%Z)
           [([0; 1; 2], [3; 4; 5]); ([0; 1; 2; 3; 4; 5], [6; 7])]
           eq_refl eq_refl eq_refl
           ([0; 1; 2; 3; 4; 5], [6; 7])).
  - simpl. auto.
  - simpl. tauto.
  - simpl. auto.
Defined.

(** C1 as stated fails: with [max_day_range = 0] and three matches on the
    same day, the third pair trains on index 0 and tests on index 1, two
    samples of the same day. *)
Lemma split_leaks_when_range_not_positive :
  non_decreasing (column0 (days_only [0; 0; 0]%Z)) = true /\
  split (mk 1 0) (days_only [0; 0; 0]%Z)
  = Ok [([], []); ([], [0]); ([0], [1])] /\
  ~ (forall f : fold, In f [([], []); ([], [0]); ([0], [1])] ->
               no_leakage (days_only [0; 0; 0]%Z) f).
Proof.
  split; [reflexivity|]. split; [reflexivity|].
  intros H.
  specialize (H ([0], [1]) ltac:(simpl; auto) 0 1
                ltac:(simpl; auto) ltac:(simpl; auto)).
  vm_compute in H. discriminate.
Qed.

(** C2: when [X] is a valid array with a sample in the season window,
    [split] yields its pairs and [get_n_splits] returns their number. *)
Theorem get_n_splits_counts_folds {V : Type} {entry : Entry V} (self : t)
        (X : @array V) :
  check_array X = Ok X ->
  window_nonempty self X ->
  exists folds,
    split self X = Ok folds /\ get_n_splits self X = Ok (length folds).
Proof.
  intros Hc Hw.
  destruct (season_nonempty self X Hc Hw) as (s0 & rest & Hg).
  unfold split, get_n_splits. rewrite Hg. simpl.
  eexists. split; [reflexivity|].
  destruct (_ >=? _)%Z; rewrite n_splits_loop_length; reflexivity.
Qed.

Lemma get_n_splits_counts_folds_witness :
  exists folds,
    split (mk 2 6)
          (days_only [0; 1; 364; 365; 366; 370; 371; 372; 380; 800]%Z)
    = Ok folds /\
    get_n_splits (mk 2 6)
          (days_only [0; 1; 364; 365; 366; 370; 371; 372; 380; 800]%Z)
    = Ok (length folds).
Proof.
  apply get_n_splits_counts_folds.
  - reflexivity.
  - exists 365%Z. split; [simpl; tauto | reflexivity].
Defined.

(** C5, as the code has it: when no sample's day lies in the season window
    of an array that passes [check_array], iterating [split] and calling
    [get_n_splits] both fail, before anything is yielded, with the
    [IndexError] that numpy raises at [season_indices[0]]; the code has no
    exception class of its own.  When [check_array] rejects [X], both fail
    with its exception. *)
Theorem empty_window_raises {V : Type} {entry : Entry V} (self : t)
        (X : @array V) :
  (forall d, In d (column0 X) -> in_season self d = false) ->
  (check_array X = Ok X ->
   split self X = Raise IndexError /\
   get_n_splits self X = Raise IndexError) /\
  (forall e, check_array X = Raise e ->
             split self X = Raise e /\ get_n_splits self X = Raise e).
Proof.
  intros Hout. unfold split, get_n_splits. split.
  - intros Hc.
    rewrite (generate_of_check self X Hc), (season_empty self X Hout).
    split; reflexivity.
  - intros e Hc. unfold _generate_season_indices. rewrite Hc.
    split; reflexivity.
Qed.

Lemma empty_window_raises_witness :
  split (mk 2 6) (days_only [0; 1; 800]%Z) = Raise IndexError /\
  get_n_splits (mk 2 6) (days_only [0; 1; 800]%Z) = Raise IndexError.
Proof.
  apply (proj1 (empty_window_raises (mk 2 6) (days_only [0; 1; 800]%Z)
                  ltac:(intros d Hd; simpl in Hd;
                        destruct Hd as [<- | [<- | [<- | []]]];
                        reflexivity))).
  reflexivity.
Defined.

(** C5 as stated fails on the class of the exception: with three samples
    outside season 2, what [split] and [get_n_splits] raise is an
    [IndexError], not an [EmptyWindowError]. *)
Lemma empty_window_is_an_index_error :
  exists e,
    split (mk 2 6) (days_only [0; 1; 800]%Z) = Raise e /\
    get_n_splits (mk 2 6) (days_only [0; 1; 800]%Z) = Raise e /\
    class_name e = "IndexError"%string /\
    class_name e <> "EmptyWindowError"%string.
Proof.
  exists IndexError. repeat split. discriminate.
Qed.

(** C7: the folds yielded by [split] form an expanding window.  For two
    consecutive folds, the training set of the later one is the training
    set of the earlier one followed by its test set; so the earlier
    training set is a prefix of its own train-then-test indices, of the
    next training set and of the next fold's train-then-test indices, and
    the training sets do not shrink. *)
Theorem split_expanding_window {V : Type} {entry : Entry V} (self : t)
        (X : @array V)
        (folds : list fold) :
  split self X = Ok folds ->
  forall k f1 f2,
    nth_error folds k = Some f1 ->
    nth_error folds (S k) = Some f2 ->
    fst f2 = fst f1 ++ snd f1 /\
    is_prefix (fst f1) (fst f1 ++ snd f1) /\
    is_prefix (fst f1) (fst f2) /\
    is_prefix (fst f1) (fst f2 ++ snd f2) /\
    length (fst f1) <= length (fst f2).
Proof.
  intros Hs k f1 f2 H1 H2.
  destruct (split_ok _ _ _ Hs) as (s0 & rest & Hg & ->).
  destruct (generate_ok _ _ _ _ Hg) as (_ & _ & Hseason).
  assert (Hasc : ascending_from s0 (s0 :: rest)).
  { pose proof (filter_seq_ascending
                  (fun i => in_season self (nth i (column0 X) 0%Z))
                  (length X) 0 0 (le_n 0)) as Hasc.
    rewrite <- Hseason in Hasc. destruct Hasc as [_ Hrest].
    split; [apply le_n | exact Hrest]. }
  pose proof (split_loop_chained (column0 X) (max_day_range self) _ _ Hasc)
    as Hch.
  pose proof (chained_consecutive _ _ _ _ _ Hch H1 H2) as Heq.
  split; [exact Heq|].
  split; [now exists (snd f1)|].
  split; [now exists (snd f1)|].
  split.
  - exists (snd f1 ++ snd f2). rewrite Heq. now rewrite app_assoc.
  - rewrite Heq, length_app. lia.
Qed.

Lemma split_expanding_window_witness :
  [0; 1; 2; 3; 4; 5] = [0; 1; 2] ++ [3; 4; 5] /\
  is_prefix [0; 1; 2] ([0; 1; 2] ++ [3; 4; 5]) /\
  is_prefix [0; 1; 2] [0; 1; 2; 3; 4; 5] /\
  is_prefix [0; 1; 2] ([0; 1; 2; 3; 4; 5] ++ [6; 7]) /\
  3 <= 6.
Proof.
  apply (split_expanding_window (mk 2 6)
           (days_only [0; 1; 364; 365; 366; 370; 371; 372; 380; 800]%Z)
           [([0; 1; 2], [3; 4; 5]); ([0; 1; 2; 3; 4; 5], [6; 7])]
           eq_refl 0 ([0; 1; 2], [3; 4; 5]) ([0; 1; 2; 3; 4; 5], [6; 7])
           eq_refl eq_refl).
Defined.




(** C9, as the code has it: for two arrays that pass [check_array] (2-d,
    every entry finite, at least one row) and have the same column 0, in
    non-decreasing order, [split] yields the same pairs in the same order,
    whatever the other columns hold, and [get_n_splits] returns the same
    number.  The other columns are read by [check_array] alone; the order
    of the days makes every day difference the same in any dtype. *)
Theorem split_reads_day_column_only {V1 V2 : Type}
        {entry1 : Entry V1} {entry2 : Entry V2} (self : t)
        (X1 : @array V1) (X2 : @array V2) :
  check_array X1 = Ok X1 ->
  check_array X2 = Ok X2 ->
  non_decreasing (column0 X1) = true ->
  column0 X1 = column0 X2 ->
  split self X1 = split self X2 /\
  get_n_splits self X1 = get_n_splits self X2.
Proof.
  intros H1 H2 _ Hcol.
  apply check_array_valid in H1, H2.
  rewrite !split_as_days, !get_n_splits_as_days, H1, H2, Hcol.
  split; reflexivity.
Qed.

Lemma split_reads_day_column_only_witness :
  split (mk 2 6) [(0, [true]); (365, [false]); (371, [true])]%Z
  = split (mk 2 6) [(0, [7; 8]); (365, [9; 9]); (371, [1; 2])]%Z /\
  get_n_splits (mk 2 6) [(0, [true]); (365, [false]); (371, [true])]%Z
  = get_n_splits (mk 2 6) [(0, [7; 8]); (365, [9; 9]); (371, [1; 2])]%Z.
Proof.
  apply split_reads_day_column_only; reflexivity.
Defined.

(** C9 as stated fails: two binary64 arrays with the same three rows of
    days, one of which holds a [nan] in its other column.  The first is
    rejected by [check_array] with [ValueError], the second yields a
    pair. *)
Lemma split_rejects_a_nan_feature :
  column0 [(0, [PrimFloat.nan]); (365, [1%float]); (371, [1%float])]%Z
  = column0 [(0, [1%float]); (365, [1%float]); (371, [1%float])]%Z /\
  split (mk 2 6)
        [(0, [PrimFloat.nan]); (365, [1%float]); (371, [1%float])]%Z
  = Raise ValueError /\
  split (mk 2 6) [(0, [1%float]); (365, [1%float]); (371, [1%float])]%Z
  = Ok [([0], [1])].
Proof.
  split; [reflexivity|]. split; vm_compute; reflexivity.
Qed.

End SplitFacts.

(** * Properties of the capital simulation *)

Module StatsFacts.

Import BettingAgent.

(** The credit ceiling on one row: the stake does not exceed the row's
    capital plus [bet_factor ** credit_exponent]. *)
Definition within_credit {F : Type} {num : Number F}
           (bet_factor credit_exponent : F) (row : statistic) : Prop :=
  fgt (bet_amount row) (fadd (capital row) (fpow bet_factor credit_exponent))
  = false.

(** The folds that were processed: as many as rows were emitted. *)
Definition processed {F : Type}
           (rows : list (@statistic F)) (results : list (@fold_result F))
  : list fold_result :=
  firstn (length rows) results.

Section Stats.

Context {F : Type} {num : Number F}.
Variable total_profit_score : list Z -> list F -> F.
Variable precision_score : list Z -> list Z -> F.
Variable bet_factor credit_exponent : F.

Local Abbreviation body :=
  (body total_profit_score precision_score bet_factor credit_exponent).
Local Abbreviation loop :=
  (loop total_profit_score precision_score bet_factor credit_exponent).
Local Abbreviation trajectory :=
  (trajectory total_profit_score precision_score bet_factor credit_exponent).
Local Abbreviation calculate_backtest_stats :=
  (calculate_backtest_stats total_profit_score precision_score bet_factor
                            credit_exponent).
Local Abbreviation divisor :=
  (divisor total_profit_score precision_score bet_factor credit_exponent).
Local Abbreviation first_zero_at :=
  (first_zero_at total_profit_score precision_score bet_factor
                 credit_exponent).

(** What one pass through the body does to the locals. *)
Lemma body_spec (st : locals) (r : fold_result) :
  exists row,
    statistics (body st r) = statistics st ++ [row] /\
    within_credit bet_factor credit_exponent row /\
    y_test_all (body st r) = fst r ++ y_test_all st /\
    y_pred_all (body st r) = snd r ++ y_pred_all st.
Proof.
  destruct r as [y_test y_pred]. unfold body.
  eexists. split; [reflexivity|]. split; [|split; reflexivity].
  unfold within_credit. cbn [bet_amount capital].
  match goal with
  | |- fgt (if fgt ?b ?mc then _ else _) _ = false =>
      destruct (fgt b mc) eqn:Hgt; [apply fgt_irrefl | exact Hgt]
  end.
Qed.

Lemma loop_within_credit (results : list fold_result) :
  forall st,
    Forall (within_credit bet_factor credit_exponent) (statistics st) ->
    Forall (within_credit bet_factor credit_exponent)
           (statistics (loop st results)).
Proof.
  induction results as [|r rest IH]; intros st Hst; simpl; [exact Hst|].
  destruct (body_spec st r) as (row & Hrow & Hcredit & _).
  assert (Hst' : Forall (within_credit bet_factor credit_exponent)
                        (statistics (body st r))).
  { rewrite Hrow. apply Forall_app. split; [exact Hst|].
    constructor; [exact Hcredit | constructor]. }
  destruct (feq _ _); [exact Hst' | now apply IH].
Qed.

(** The loop stops at the first state of the trajectory whose stake is
    zero. *)
Lemma loop_stops_at_first_zero (results : list fold_result) :
  forall st pre st' post,
    trajectory st results = pre ++ st' :: post ->
    feq (l_bet_amount st') f0 = true ->
    (forall s, In s pre -> feq (l_bet_amount s) f0 = false) ->
    loop st results = st' /\
    length (statistics st') = length (statistics st) + S (length pre).
Proof.
  induction results as [|r rest IH]; intros st pre st' post Htr Hz Hnz.
  - destruct pre; discriminate.
  - simpl in Htr.
    destruct (body_spec st r) as (row & Hrow & _).
    destruct pre as [|p pre]; simpl in Htr; injection Htr as Hb Hrest.
    + subst st'. simpl. rewrite Hz. split; [reflexivity|].
      rewrite Hrow, length_app. simpl. lia.
    + subst p. simpl.
      rewrite (Hnz (body st r)) by (simpl; auto).
      destruct (IH (body st r) pre st' post Hrest Hz) as [Hl Hlen].
      { intros s Hs. apply Hnz. simpl. auto. }
      split; [exact Hl|].
      rewrite Hlen, Hrow, length_app. simpl. lia.
Qed.

(** The accumulated arrays hold the folds that were processed, the latest
    first. *)
Lemma loop_accumulates (results : list fold_result) :
  forall st,
    exists n,
      length (statistics (loop st results)) = length (statistics st) + n /\
      y_test_all (loop st results)
      = concat (rev (map fst (firstn n results))) ++ y_test_all st /\
      y_pred_all (loop st results)
      = concat (rev (map snd (firstn n results))) ++ y_pred_all st.
Proof.
  induction results as [|r rest IH]; intros st.
  - exists 0. simpl. split; [lia | split; reflexivity].
  - simpl.
    destruct (body_spec st r) as (row & Hrow & _ & Htest & Hpred).
    destruct (feq _ _).
    + exists 1. simpl. rewrite Hrow, length_app, Htest, Hpred, !app_nil_r.
      simpl. split; [lia | split; reflexivity].
    + destruct (IH (body st r)) as (n & Hlen & Ht & Hp).
      exists (S n). rewrite Hlen, Ht, Hp, Hrow, length_app, Htest, Hpred.
      simpl. rewrite !concat_app. simpl. rewrite !app_nil_r, <- !app_assoc.
      split; [lia | split; reflexivity].
Qed.

Lemma length_concat_rev (l : list (list F)) :
  length (concat (rev l)) = list_sum (map (@length F) l).
Proof.
  induction l as [|x l IH]; [reflexivity|].
  simpl. rewrite concat_app, length_app, IH. simpl.
  rewrite app_nil_r. lia.
Qed.

Lemma list_sum_pos (l : list (list F)) (x : list F) :
  In x l -> x <> [] -> 0 < list_sum (map (@length F) l).
Proof.
  induction l as [|y l IH]; intros Hin Hx; [contradiction|].
  simpl. destruct Hin as [-> | Hin].
  - destruct x; [congruence | simpl; lia].
  - specialize (IH Hin Hx). lia.
Qed.

(** The frame starts empty, so every row it ends with was checked against
    the ceiling. *)
Lemma frame_within_credit (results : list fold_result) :
  Forall (within_credit bet_factor credit_exponent)
         (statistics (loop initial results)).
Proof. apply loop_within_credit. constructor. Qed.

(** C3: in every row of the frame returned by [calculate_backtest_stats],
    [bet_amount] does not exceed the capital of that row plus
    [bet_factor ** credit_exponent].  It holds for every list of fold
    results and all parameters, so also for [bet_factor > 1] and
    [credit_exponent >= 0]. *)
Theorem credit_ceiling_on_every_row (results : list fold_result) :
  Forall (within_credit bet_factor credit_exponent)
         (frame (calculate_backtest_stats results)).
Proof.
  unfold BettingAgent.calculate_backtest_stats. cbn [frame].
  apply frame_within_credit.
Qed.

(** C4: if the stake after the clamp is zero for the first time at fold
    [k], the returned frame has exactly [k] rows, however many folds
    follow. *)
Theorem halts_at_first_zero_stake (results : list fold_result) (k : nat) :
  first_zero_at results k ->
  length (frame (calculate_backtest_stats results)) = k.
Proof.
  intros (pre & st & post & Htr & Hk & Hz & Hnz).
  unfold BettingAgent.calculate_backtest_stats. cbn [frame].
  destruct (loop_stops_at_first_zero results initial pre st post Htr Hz Hnz)
    as [-> Hlen].
  rewrite Hlen. simpl. exact Hk.
Qed.

(** C10: [profit_per_bet_] is the total profit score of the concatenated
    arrays divided, without any test, by [y_pred_all.size].  That divisor is
    the number of predictions of the folds that were processed: positive as
    soon as one processed fold has a prediction, and zero for an empty
    [backtest_results_]. *)
Theorem profit_per_bet_divisor (results : list fold_result) :
  let out := calculate_backtest_stats results in
  let done := processed (frame out) results in
  profit_per_bet_ out
  = fdiv (total_profit_score (concat (rev (map fst done)))
                             (concat (rev (map snd done))))
         (of_int (Z.of_nat (divisor results))) /\
  divisor results = list_sum (map (fun r => length (snd r)) done) /\
  (results = [] -> divisor results = 0) /\
  (forall r, In r done -> snd r <> [] -> 0 < divisor results).
Proof.
  intros out done. subst out done.
  unfold BettingAgent.calculate_backtest_stats, BettingAgent.divisor,
    processed.
  cbn [frame profit_per_bet_].
  destruct (loop_accumulates results initial) as (n & Hlen & Ht & Hp).
  simpl in Hlen. rewrite Hlen, Ht, Hp. simpl. rewrite !app_nil_r.
  assert (Hsum : length (concat (rev (map snd (firstn n results))))
                 = list_sum (map (fun r : fold_result => length (snd r))
                                 (firstn n results))).
  { rewrite length_concat_rev, map_map. reflexivity. }
  split; [reflexivity|]. split; [exact Hsum|]. split.
  - intros ->. now rewrite firstn_nil.
  - intros r Hr Hne. rewrite length_concat_rev.
    apply list_sum_pos with (snd r); [|exact Hne].
    now apply in_map.
Qed.

End Stats.

Import Instances.

(** On binary64, whatever [pow] computes: no row has a stake above its
    ceiling, [nan] included. *)
Corollary credit_ceiling_binary64
          (pow : float -> float -> float)
          (total_profit_score : list Z -> list float -> float)
          (precision_score : list Z -> list Z -> float)
          (bet_factor credit_exponent : float)
          (results : list (@fold_result float)) :
  Forall (fun row =>
            PrimFloat.ltb
              (PrimFloat.add (capital row) (pow bet_factor credit_exponent))
              (bet_amount row) = false)
         (statistics
            (@loop float (float_Number pow) total_profit_score
                   precision_score bet_factor credit_exponent
                   (@initial float (float_Number pow)) results)).
Proof.
  exact (@frame_within_credit float (float_Number pow) total_profit_score
           precision_score bet_factor credit_exponent results).
Qed.

(** C4, a run: with [bet_factor = 2] and [credit_exponent = 1] the second
    of three folds loses 3, the ceiling is [-2 + 2 = 0], and the frame has
    two rows. *)
Lemma halts_at_first_zero_stake_witness :
  length (frame (Examples.calculate_backtest_stats 2%Q 1%Q
                   [([0%Z], [1%Q]); ([(-3)%Z], [1%Q]); ([1%Z], [1%Q])]))
  = 2.
Proof.
  apply (halts_at_first_zero_stake
           Examples.label_sum_score Examples.constant_precision 2%Q 1%Q).
  pose (T := trajectory Examples.label_sum_score Examples.constant_precision
                        2%Q 1%Q initial
                        [([0%Z], [1%Q]); ([(-3)%Z], [1%Q]); ([1%Z], [1%Q])]).
  exists (firstn 1 T), (nth 1 T initial), (skipn 2 T).
  split; [reflexivity|]. split; [reflexivity|]. split; [reflexivity|].
  intros st' [<- | []]. reflexivity.
Defined.

(** C10, a run: one processed fold with two predictions gives a positive
    divisor. *)
Lemma profit_per_bet_divisor_witness :
  0 < divisor Examples.label_sum_score Examples.constant_precision 2%Q 1%Q
              [([1%Z; 0%Z], [1%Q; 1%Q])].
Proof.
  apply (proj2 (proj2 (proj2
           (profit_per_bet_divisor
              Examples.label_sum_score Examples.constant_precision 2%Q 1%Q
              [([1%Z; 0%Z], [1%Q; 1%Q])])))) with ([1%Z; 0%Z], [1%Q; 1%Q]).
  - simpl. auto.
  - discriminate.
Defined.

End StatsFacts.

(** * Properties of [backtest] *)

Module BacktestFacts.

Import SeasonTimeSeriesSplit BettingAgent.

Section Backtest.

Context {F V Clf Est Size Params Bar : Type} {entry : Entry V}.
Variable ProfitEstimator : Clf -> Est.
Variable DummyClassifier_constant_1 : Clf.
Variable no_params : Params.
Variable fit :
  Est -> list (list V) -> list Z -> @fit_params V Size Params -> result Est.
Variable predict : Est -> list (list V) -> result (list F).
Variable train_test_split :
  list (list V) -> list Z -> Size ->
  result (list (list V) * list (list V) * list Z * list Z).
Variable ProgressBar : Z -> Z -> result Bar.
Variable update : Bar -> Z -> result Bar.

Local Abbreviation backtest :=
  (backtest ProfitEstimator DummyClassifier_constant_1 no_params fit predict
            train_test_split ProgressBar update).

(** C6, as the code has it.  [backtest] has no test of its own on the
    number of folds.  When no sample lies in the season window of the
    array handed to the splitter, and that array passes [check_array],
    [backtest] fails with the [IndexError] of the splitter.  When the
    splitter yields zero folds on a window that is not empty (no day gap
    reaches [max_day_range]) and the progress bar accepts [max_value = 0],
    it terminates normally with an empty [backtest_results_]. *)
Theorem backtest_without_folds
        (X X' : @array V) (y : list Z) (odds : list V)
        (estimator : option Clf) (fit_params0 : option fit_params)
        (test_year max_day_range : Z) :
  hstack_column X odds = Ok X' ->
  ((forall d, In d (column0 X') ->
              in_season (mk test_year max_day_range) d = false) ->
   check_array X' = Ok X' ->
   backtest (Ok (X, y, odds)) estimator fit_params0 test_year max_day_range
   = Raise IndexError) /\
  (split (mk test_year max_day_range) X' = Ok [] ->
   forall bar, ProgressBar 1 0 = Ok bar ->
   exists self,
     backtest (Ok (X, y, odds)) estimator fit_params0 test_year max_day_range
     = Ok self /\
     backtest_results_ self = []).
Proof.
  intros Hh. unfold BettingAgent.backtest. cbn [bind]. rewrite Hh. cbn [bind].
  split.
  - intros Hout Hc.
    assert (Hs : split (mk test_year max_day_range) X' = Raise IndexError).
    { unfold split.
      now rewrite (SplitFacts.generate_of_check _ X' Hc),
        (SplitFacts.season_empty _ X' Hout). }
    now rewrite Hs.
  - intros Hs bar Hbar. rewrite Hs. cbn [bind length Z.of_nat].
    rewrite Hbar. cbn [bind run_folds].
    eexists. split; reflexivity.
Qed.

End Backtest.

(** C6, a run: three matches within five days of season 1 and a day range
    of 6 give no fold, and [backtest] returns with nothing recorded. *)
Lemma backtest_without_folds_witness :
  exists self,
    Examples.backtest
      (Ok ([(0, []); (2, []); (5, [])]%Z, [0; 1; 1]%Z, [2; 3; 2]%Q))
      None None 1 6
    = Ok self /\
    backtest_results_ self = [].
Proof.
  apply (proj2 (backtest_without_folds
                  (fun clf : unit => clf) tt tt Examples.constant_fit
                  Examples.constant_predict Examples.keep_all_split
                  Examples.ProgressBar Examples.update
                  [(0, []); (2, []); (5, [])]%Z
                  [(0, [2%Q]); (2, [3%Q]); (5, [2%Q])]%Z
                  [0; 1; 1]%Z [2; 3; 2]%Q None None 1 6 eq_refl))
    with (Examples.mk_bar 1 0 1).
  - reflexivity.
  - reflexivity.
Defined.

(** C6 as stated fails: two matches on days 0 and 1 of season 1 with the
    default day range of 6.  The window is not empty, the splitter yields
    zero folds, and [backtest] terminates normally with an empty
    [backtest_results_]. *)
Lemma backtest_returns_with_empty_results :
  split (mk 1 6) [(0, [2%Q]); (1, [3%Q])]%Z = Ok [] /\
  exists self,
    Examples.backtest (Ok ([(0, []); (1, [])]%Z, [0; 1]%Z, [2; 3]%Q))
                      None None 1 6
    = Ok self /\
    backtest_results_ self = [].
Proof.
  split; [reflexivity|].
  eexists. split; [vm_compute; reflexivity | reflexivity].
Qed.

End BacktestFacts.

(** * More about the splitter *)

Module SplitMore.

Import SeasonTimeSeriesSplit SplitFacts.

(** The running example: ten samples, six of them in season 2. *)
Definition ten_days : @array unit :=
  days_only [0; 1; 364; 365; 366; 370; 371; 372; 380; 800]%Z.

(** *** The walk, on any ascending list of indices *)

(** Every pair the walk yields trains on [[0, s)] and tests on [[s, e)],
    where the anchor [s] is the start or an index of the list, [e] is a
    later index of the list, and the days of [s] and [e] are
    [max_day_range] apart. *)
Lemma split_loop_folds (days : list Z) (mdr : Z) (inds : list nat) :
  forall start,
    ascending_from start inds ->
    forall f, In f (split_loop days mdr start inds) ->
    exists s e,
      f = (seq 0 s, seq s (e - s)) /\
      (s = start \/ In s inds) /\ In e inds /\ s <= e /\
      (mdr <= nth e days 0 - nth s days 0)%Z.
Proof.
  induction inds as [|ind rest IH]; intros start Hasc f Hf; simpl in Hf;
    [contradiction|].
  destruct Hasc as [Hle Hrest].
  destruct (nth ind days 0 - nth start days 0 >=? mdr)%Z eqn:Hc.
  - destruct Hf as [<- | Hf].
    + exists start, ind. unfold arange. rewrite Nat.sub_0_r.
      apply Z.geb_le in Hc. simpl. auto 6.
    + destruct (IH ind Hrest f Hf) as (s & e & Hf' & Hs & He & Hse & Hd).
      exists s, e. simpl. intuition auto.
  - destruct (IH start (ascending_from_weaken start ind rest Hle Hrest) f Hf)
      as (s & e & Hf' & Hs & He & Hse & Hd).
    exists s, e. simpl. intuition auto.
Qed.

Lemma split_loop_length (days : list Z) (mdr : Z) (inds : list nat) :
  forall start, length (split_loop days mdr start inds) <= length inds.
Proof.
  induction inds as [|ind rest IH]; intros start; simpl; [lia|].
  destruct (_ >=? _)%Z; simpl.
  - specialize (IH ind). lia.
  - specialize (IH start). lia.
Qed.


Lemma ascending_le_last (l : list nat) :
  forall s x, ascending_from s l -> In x l -> x <= last l 0.
Proof.
  induction l as [|y l IH]; intros s x Hasc Hx; [contradiction|].
  destruct Hasc as [_ Hasc]. destruct l as [|z l].
  - destruct Hx as [<- | []]. simpl. lia.
  - change (last (y :: z :: l) 0) with (last (z :: l) 0).
    destruct Hx as [<- | Hx].
    + destruct Hasc as [Hyz Hasc].
      pose proof (IH z z (conj (le_n z) Hasc) (or_introl eq_refl)). lia.
    + now apply (IH y x).
Qed.

(** With a positive day range and sorted days, a walk whose positions
    from the anchor up to [i] all stay within the range yields only test
    sets whose days are less than the range apart. *)
Lemma split_loop_day_range (days : list Z) (mdr : Z) :
  (0 < mdr)%Z ->
  non_decreasing days = true ->
  forall k i start,
    start <= i -> i + k <= length days ->
    (forall j, start <= j -> j < i ->
               (nth j days 0 < nth start days 0 + mdr)%Z) ->
    forall f, In f (split_loop days mdr start (seq i k)) ->
    forall x y, In x (snd f) -> In y (snd f) ->
                (nth y days 0 - nth x days 0 < mdr)%Z.
Proof.
  intros Hmdr Hnd.
  induction k as [|k IH]; intros i start Hsi Hlen HB f Hf x y Hx Hy;
    simpl in Hf; [contradiction|].
  destruct (Z.geb_spec (nth i days 0 - nth start days 0)%Z mdr)
    as [Hge | Hlt].
  - destruct Hf as [<- | Hf].
    + cbn [snd] in Hx, Hy. unfold arange in Hx, Hy.
      apply in_seq in Hx, Hy.
      pose proof (HB y ltac:(lia) ltac:(lia)).
      pose proof (non_decreasing_nth _ Hnd start x ltac:(lia) ltac:(lia)).
      lia.
    + apply (IH (S i) i ltac:(lia) ltac:(lia)) with (f := f);
        try assumption.
      intros j Hj1 Hj2. assert (j = i) by lia. subst j. lia.
  - apply (IH (S i) start ltac:(lia) ltac:(lia)) with (f := f);
      try assumption.
    intros j Hj1 Hj2. destruct (Nat.eq_dec j i) as [-> | Hne]; [lia|].
    apply HB; lia.
Qed.

Lemma chained_concat (folds : list fold) :
  forall s, chained s folds ->
            exists e, s <= e /\ concat (map snd folds) = seq s (e - s).
Proof.
  induction folds as [|f folds IH]; intros s Hch.
  - exists s. split; [lia|]. now rewrite Nat.sub_diag.
  - destruct Hch as (_ & e & Hse & Hte & Hrest).
    destruct (IH e Hrest) as (e' & Hee' & Hcat).
    exists e'. split; [lia|]. simpl. rewrite Hte, Hcat.
    replace (e' - s) with ((e - s) + (e' - e)) by lia.
    rewrite seq_app. do 2 f_equal. lia.
Qed.

Section Array.

Context {V : Type} {entry : Entry V}.
Implicit Types (X : @array V) (self : t).

(** What a successful [split] says about the season indices. *)
Lemma split_ok_season self X folds :
  split self X = Ok folds ->
  exists s0 rest,
    _generate_season_indices self X = Ok (column0 X, s0 :: rest) /\
    folds = split_loop (column0 X) (max_day_range self) s0 (s0 :: rest) /\
    ascending_from s0 (s0 :: rest) /\
    forall i, In i (s0 :: rest) ->
              i < length X /\ in_season self (day X i) = true.
Proof.
  intros Hs.
  destruct (split_ok _ _ _ Hs) as (s0 & rest & Hg & Hf).
  exists s0, rest. split; [exact Hg|]. split; [exact Hf|].
  destruct (generate_ok _ _ _ _ Hg) as (_ & _ & Hseason).
  split.
  - pose proof (filter_seq_ascending
                  (fun i => in_season self (nth i (column0 X) 0%Z))
                  (length X) 0 0 (le_n 0)) as Hasc.
    rewrite <- Hseason in Hasc. destruct Hasc as [_ Hrest].
    split; [apply le_n | exact Hrest].
  - intros i Hi. rewrite Hseason in Hi. apply filter_In in Hi.
    destruct Hi as [Hi Hp]. apply in_seq in Hi. split; [lia | exact Hp].
Qed.

(** The shape of every pair of a successful [split]. *)
Lemma split_folds self X folds :
  split self X = Ok folds ->
  forall f, In f folds ->
  exists s e,
    f = (seq 0 s, seq s (e - s)) /\ s <= e /\ e < length X /\
    in_season self (day X s) = true /\ in_season self (day X e) = true /\
    (max_day_range self <= day X e - day X s)%Z.
Proof.
  intros Hs f Hf.
  destruct (split_ok_season _ _ _ Hs) as (s0 & rest & _ & -> & Hasc & Hin).
  destruct (split_loop_folds _ _ _ _ Hasc f Hf)
    as (s & e & -> & Hs' & He & Hse & Hd).
  exists s, e. split; [reflexivity|]. split; [exact Hse|].
  assert (Hs'' : In s (s0 :: rest)) by (destruct Hs' as [-> | ?]; simpl; auto).
  destruct (Hin s Hs'') as [_ Hps]. destruct (Hin e He) as [Hel Hpe].
  auto.
Qed.

(** With sorted days the season indices are one block of positions. *)
Lemma season_block self X s0 rest :
  non_decreasing (column0 X) = true ->
  _generate_season_indices self X = Ok (column0 X, s0 :: rest) ->
  exists m, s0 :: rest = seq s0 (S m) /\ s0 + S m <= length (column0 X).
Proof.
  intros Hnd Hg.
  destruct (generate_ok _ _ _ _ Hg) as (_ & _ & Hseason).
  destruct (season_contiguous self X Hnd) as (a & m & Hcont).
  rewrite Hcont in Hseason.
  destruct m as [|m]; [discriminate|].
  assert (Ha : s0 = a) by (simpl in Hseason; congruence). subst a.
  exists m. split; [exact Hseason|].
  assert (Hin : In (s0 + m) (seq s0 (S m))) by (apply in_seq; lia).
  rewrite <- Hcont in Hin. apply filter_In in Hin.
  destruct Hin as [Hin _]. apply in_seq in Hin.
  assert (Hlen : length (column0 X) = length X)
    by (unfold column0; apply length_map).
  lia.
Qed.

(** A position whose day is in the window is a season index. *)
Lemma season_complete self X days season i :
  _generate_season_indices self X = Ok (days, season) ->
  i < length X -> in_season self (day X i) = true -> In i season.
Proof.
  intros Hg Hi Hp.
  destruct (generate_ok _ _ _ _ Hg) as (_ & _ & ->).
  apply filter_In. split; [apply in_seq; lia | exact Hp].
Qed.

End Array.

(** X1: every index that [split] yields, in a training or in a test set,
    is a position of [X]. *)
Theorem split_indices_in_range {V : Type} {entry : Entry V} (self : t)
        (X : @array V)
        (folds : list fold) :
  split self X = Ok folds ->
  forall f, In f folds ->
  forall i, In i (fst f ++ snd f) -> i < _num_samples X.
Proof.
  intros Hs f Hf i Hi.
  destruct (split_folds _ _ _ Hs f Hf) as (s & e & -> & Hse & He & _).
  unfold _num_samples. simpl in Hi. apply in_app_or in Hi.
  destruct Hi as [Hi | Hi]; apply in_seq in Hi; lia.
Qed.

Lemma split_indices_in_range_witness : 7 < _num_samples ten_days.
Proof.
  apply (split_indices_in_range (mk 2 6) ten_days
           [([0; 1; 2], [3; 4; 5]); ([0; 1; 2; 3; 4; 5], [6; 7])] eq_refl
           ([0; 1; 2; 3; 4; 5], [6; 7])).
  - simpl. auto.
  - simpl. tauto.
Defined.

(** X2: in every pair yielded by [split] the training set is the block of
    all positions before the test set and the test set is the contiguous
    block that follows it; no position is in both. *)
Theorem split_train_before_test {V : Type} {entry : Entry V} (self : t)
        (X : @array V)
        (folds : list fold) :
  split self X = Ok folds ->
  forall f, In f folds ->
  fst f = seq 0 (length (fst f)) /\
  snd f = seq (length (fst f)) (length (snd f)) /\
  forall i, ~ (In i (fst f) /\ In i (snd f)).
Proof.
  intros Hs f Hf.
  destruct (split_folds _ _ _ Hs f Hf) as (s & e & -> & Hse & _).
  simpl. rewrite !length_seq. repeat split.
  intros i [Hi Hj]. apply in_seq in Hi, Hj. lia.
Qed.

Lemma split_train_before_test_witness :
  [0; 1; 2] = seq 0 (length [0; 1; 2]) /\
  [3; 4; 5] = seq (length [0; 1; 2]) (length [3; 4; 5]) /\
  forall i, ~ (In i [0; 1; 2] /\ In i [3; 4; 5]).
Proof.
  apply (split_train_before_test (mk 2 6) ten_days
           [([0; 1; 2], [3; 4; 5]); ([0; 1; 2; 3; 4; 5], [6; 7])] eq_refl
           ([0; 1; 2], [3; 4; 5])).
  simpl. auto.
Defined.

(** X3: with a positive [max_day_range] no test set is empty, and its first
    index is a sample of the season window. *)
Theorem split_test_not_empty {V : Type} {entry : Entry V} (self : t)
        (X : @array V)
        (folds : list fold) :
  (0 < max_day_range self)%Z ->
  split self X = Ok folds ->
  forall f, In f folds ->
  exists s, hd_error (snd f) = Some s /\ in_season self (day X s) = true.
Proof.
  intros Hmdr Hs f Hf.
  destruct (split_folds _ _ _ Hs f Hf)
    as (s & e & -> & Hse & _ & Hps & _ & Hd).
  exists s. split; [|exact Hps].
  assert (Hne : s <> e) by (intros ->; lia).
  simpl. destruct (e - s) as [|k] eqn:Hk; [lia | reflexivity].
Qed.

Lemma split_test_not_empty_witness :
  exists s, hd_error [6; 7] = Some s /\
            in_season (mk 2 6) (day ten_days s) = true.
Proof.
  apply (split_test_not_empty (mk 2 6) ten_days
           [([0; 1; 2], [3; 4; 5]); ([0; 1; 2; 3; 4; 5], [6; 7])]
           eq_refl eq_refl ([0; 1; 2; 3; 4; 5], [6; 7])).
  simpl. auto.
Defined.

(** X5: when the day column is non-decreasing, every test index is a sample
    of the season window. *)
Theorem split_tests_in_season {V : Type} {entry : Entry V} (self : t)
        (X : @array V)
        (folds : list fold) :
  non_decreasing (column0 X) = true ->
  split self X = Ok folds ->
  forall f, In f folds ->
  forall j, In j (snd f) -> in_season self (day X j) = true.
Proof.
  intros Hnd Hs f Hf j Hj.
  destruct (split_folds _ _ _ Hs f Hf)
    as (s & e & -> & Hse & He & Hps & Hpe & _).
  simpl in Hj. apply in_seq in Hj.
  apply in_season_spec in Hps, Hpe. apply in_season_spec.
  assert (Hlen : length (column0 X) = length X)
    by (unfold column0; apply length_map).
  unfold day in *.
  pose proof (non_decreasing_nth _ Hnd s j ltac:(lia) ltac:(lia)).
  pose proof (non_decreasing_nth _ Hnd j e ltac:(lia) ltac:(lia)).
  lia.
Qed.

Lemma split_tests_in_season_witness :
  in_season (mk 2 6) (day ten_days 7) = true.
Proof.
  apply (split_tests_in_season (mk 2 6) ten_days
           [([0; 1; 2], [3; 4; 5]); ([0; 1; 2; 3; 4; 5], [6; 7])]
           eq_refl eq_refl ([0; 1; 2; 3; 4; 5], [6; 7])).
  - simpl. auto.
  - simpl. auto.
Defined.

(** X6: the last season index is in no test set: the samples from the last
    anchor to the end of the season are never tested. *)
Theorem split_drops_last_window {V : Type} {entry : Entry V} (self : t)
        (X : @array V)
        (folds : list fold) (days : list Z) (season : list nat) :
  _generate_season_indices self X = Ok (days, season) ->
  split self X = Ok folds ->
  forall f, In f folds -> ~ In (last season 0) (snd f).
Proof.
  intros Hg Hs f Hf Hin.
  destruct (split_ok_season _ _ _ Hs) as (s0 & rest & Hg' & -> & Hasc & _).
  rewrite Hg in Hg'. injection Hg' as -> ->.
  destruct (split_loop_folds _ _ _ _ Hasc f Hf)
    as (s & e & -> & _ & He & Hse & _).
  pose proof (ascending_le_last _ _ _ Hasc He) as Hlast.
  cbn [snd] in Hin. apply in_seq in Hin. lia.
Qed.

Lemma split_drops_last_window_witness :
  last [3; 4; 5; 6; 7; 8] 0 = 8 /\ ~ In (last [3; 4; 5; 6; 7; 8] 0) [6; 7].
Proof.
  split; [reflexivity|].
  apply (split_drops_last_window (mk 2 6) ten_days
           [([0; 1; 2], [3; 4; 5]); ([0; 1; 2; 3; 4; 5], [6; 7])]
           (column0 ten_days) [3; 4; 5; 6; 7; 8] eq_refl eq_refl
           ([0; 1; 2; 3; 4; 5], [6; 7])).
  simpl. auto.
Defined.



(** X8: [get_n_splits] never exceeds the number of season samples, and
    stays below it when [max_day_range] is positive. *)
Theorem get_n_splits_bounded {V : Type} {entry : Entry V} (self : t)
        (X : @array V)
        (days : list Z) (season : list nat) (n : nat) :
  _generate_season_indices self X = Ok (days, season) ->
  get_n_splits self X = Ok n ->
  n <= length season /\
  ((0 < max_day_range self)%Z -> n < length season).
Proof.
  intros Hg Hn. unfold get_n_splits in Hn. rewrite Hg in Hn.
  destruct season as [|s0 rest]; [discriminate|].
  assert (Hn' : n = n_splits_loop days (max_day_range self) s0 0
                                  (s0 :: rest))
    by (unfold bind, first_index in Hn; congruence).
  rewrite Hn', n_splits_loop_length. split.
  - apply split_loop_length.
  - intros Hmdr. simpl.
    destruct (Z.geb_spec (nth s0 days 0 - nth s0 days 0)%Z
                         (max_day_range self)) as [Hge | _]; [lia|].
    pose proof (split_loop_length days (max_day_range self) rest s0). lia.
Qed.

Lemma get_n_splits_bounded_witness :
  2 <= length [3; 4; 5; 6; 7; 8] /\
  ((0 < max_day_range (mk 2 6))%Z -> 2 < length [3; 4; 5; 6; 7; 8]).
Proof.
  apply (get_n_splits_bounded (mk 2 6) ten_days (column0 ten_days)
           [3; 4; 5; 6; 7; 8] 2 eq_refl eq_refl).
Defined.

(** X9: read in order, the test sets of the pairs enumerate consecutive
    positions from the first season index on: no sample is tested twice
    and none is skipped between two test sets. *)
Theorem split_tests_tile {V : Type} {entry : Entry V} (self : t) (X : @array V)
        (folds : list fold) (days : list Z) (season : list nat) :
  _generate_season_indices self X = Ok (days, season) ->
  split self X = Ok folds ->
  concat (map snd folds)
  = seq (hd 0 season) (length (concat (map snd folds))).
Proof.
  intros Hg Hs.
  destruct (split_ok_season _ _ _ Hs) as (s0 & rest & Hg' & -> & Hasc & _).
  rewrite Hg in Hg'. injection Hg' as -> ->.
  pose proof (split_loop_chained (column0 X) (max_day_range self) _ _ Hasc)
    as Hch.
  destruct (chained_concat _ _ Hch) as (e & _ & Hcat).
  rewrite Hcat, length_seq. reflexivity.
Qed.

Lemma split_tests_tile_witness :
  concat (map snd [([0; 1; 2], [3; 4; 5]); ([0; 1; 2; 3; 4; 5], [6; 7])])
  = seq (hd 0 [3; 4; 5; 6; 7; 8])
        (length (concat (map snd [([0; 1; 2], [3; 4; 5]);
                                  ([0; 1; 2; 3; 4; 5], [6; 7])]))).
Proof.
  apply (split_tests_tile (mk 2 6) ten_days
           [([0; 1; 2], [3; 4; 5]); ([0; 1; 2; 3; 4; 5], [6; 7])]
           (column0 ten_days) [3; 4; 5; 6; 7; 8] eq_refl eq_refl).
Defined.

(** X4: with a positive [max_day_range] and a non-decreasing day column,
    the days of any two samples of one test set are less than
    [max_day_range] apart. *)
Theorem split_test_day_range {V : Type} {entry : Entry V} (self : t)
        (X : @array V)
        (folds : list fold) :
  (0 < max_day_range self)%Z ->
  non_decreasing (column0 X) = true ->
  split self X = Ok folds ->
  forall f, In f folds ->
  forall x y, In x (snd f) -> In y (snd f) ->
              (day X y - day X x < max_day_range self)%Z.
Proof.
  intros Hmdr Hnd Hs f Hf x y Hx Hy.
  destruct (split_ok _ _ _ Hs) as (s0 & rest & Hg & ->).
  destruct (season_block self X s0 rest Hnd Hg) as (m & Hblock & Hlen).
  rewrite Hblock in Hf. unfold day.
  apply (split_loop_day_range (column0 X) (max_day_range self) Hmdr Hnd
           (S m) s0 s0 (le_n s0) Hlen) with (f := f); try assumption.
  intros j Hj1 Hj2. lia.
Qed.

Lemma split_test_day_range_witness :
  (day ten_days 5 - day ten_days 3 < 6)%Z.
Proof.
  apply (split_test_day_range (mk 2 6) ten_days
           [([0; 1; 2], [3; 4; 5]); ([0; 1; 2; 3; 4; 5], [6; 7])]
           eq_refl eq_refl eq_refl ([0; 1; 2], [3; 4; 5])).
  - simpl. auto.
  - simpl. auto.
  - simpl. auto.
Defined.

(** X10: a day belongs to the window of exactly one [test_year], the one
    given by the integer division of the day by 365, plus one. *)
Theorem in_season_iff_year (self : t) (d : Z) :
  in_season self d = true <-> test_year self = (d / 365 + 1)%Z.
Proof.
  rewrite in_season_spec. unfold start_day, end_day.
  pose proof (Z.div_mod d 365 ltac:(lia)) as Hdm.
  pose proof (Z.mod_pos_bound d 365 ltac:(lia)) as Hm.
  split; intros H; lia.
Qed.

Lemma in_season_iff_year_witness : in_season (mk 2 6) 371 = true.
Proof.
  apply (proj2 (in_season_iff_year (mk 2 6) 371)). reflexivity.
Defined.

(** X11: when the day column is non-decreasing, the first pair yielded
    trains on exactly the samples of the earlier seasons: the positions
    whose day is before the start of the window (none, when the first
    sample is already in the window). *)
Theorem split_first_train_is_past {V : Type} {entry : Entry V} (self : t)
        (X : @array V)
        (f : fold) (folds : list fold) :
  non_decreasing (column0 X) = true ->
  split self X = Ok (f :: folds) ->
  forall i, i < length X ->
            (In i (fst f) <-> (day X i < start_day self)%Z).
Proof.
  intros Hnd Hs i Hi.
  destruct (split_ok_season _ _ _ Hs) as (s0 & rest & Hg & Hf & Hasc & Hin).
  pose proof (split_loop_chained (column0 X) (max_day_range self) _ _ Hasc)
    as Hch.
  rewrite <- Hf in Hch. destruct Hch as (Htr & _).
  rewrite Htr, in_seq.
  destruct (season_block self X s0 rest Hnd Hg) as (m & Hblock & _).
  destruct (Hin s0 (or_introl eq_refl)) as [Hs0 Hp0].
  apply in_season_spec in Hp0.
  assert (Hlen : length (column0 X) = length X)
    by (unfold column0; apply length_map).
  unfold day in *. split.
  - intros Hlt.
    pose proof (non_decreasing_nth _ Hnd i s0 ltac:(lia) ltac:(lia)) as Hle.
    destruct (in_season self (nth i (column0 X) 0%Z)) eqn:Hpi.
    + pose proof (season_complete self X _ _ i Hg Hi Hpi) as Hmem.
      rewrite Hblock in Hmem. apply in_seq in Hmem. lia.
    + assert (Hn : ~ (start_day self <= nth i (column0 X) 0
                      < end_day self)%Z).
      { intros Hw. apply in_season_spec in Hw. congruence. }
      lia.
  - intros Hlt. destruct (Nat.lt_ge_cases i s0) as [Hc | Hc]; [lia|].
    pose proof (non_decreasing_nth _ Hnd s0 i Hc ltac:(lia)). lia.
Qed.

Lemma split_first_train_is_past_witness :
  In 2 [0; 1; 2] <-> (day ten_days 2 < start_day (mk 2 6))%Z.
Proof.
  apply (split_first_train_is_past (mk 2 6) ten_days ([0; 1; 2], [3; 4; 5])
           [([0; 1; 2; 3; 4; 5], [6; 7])] eq_refl eq_refl 2).
  simpl. lia.
Defined.

End SplitMore.

(** * More about the capital simulation *)

Module StatsMore.

Import BettingAgent Instances.

(** The capital and the stake carried into fold [k] (counted from 0): the
    initial ones, or those of the row before. *)
Definition carried {F : Type} {num : Number F}
           (rows : list (@statistic F)) (k : nat) : F * F :=
  match k with
  | 0 => (f1, f1)
  | S j =>
      match nth_error rows j with
      | Some row => (capital row, bet_amount row)
      | None => (f1, f1)
      end
  end.

(** The number of predictions that are bets. *)
Definition count_bets {F : Type} {num : Number F} (y_pred : list F) : nat :=
  length (filter (fun p => fgt p f0) y_pred).

(** Runs on rationals, with [bet_factor = 2] and [credit_exponent = 1]:
    three folds of one bet each, the second of which loses 3 and brings the
    ceiling, and the stake, to zero. *)
Definition ruin_at_two : list (@fold_result Q) :=
  [([0%Z], [1%Q]); ([(-3)%Z], [1%Q]); ([1%Z], [1%Q])].

Definition stats_of (results : list (@fold_result Q)) : @stats Q :=
  Examples.calculate_backtest_stats 2%Q 1%Q results.

Section Stats.

Context {F : Type} {num : Number F}.
Variable total_profit_score : list Z -> list F -> F.
Variable precision_score : list Z -> list Z -> F.
Variable bet_factor credit_exponent : F.

Local Abbreviation body :=
  (body total_profit_score precision_score bet_factor credit_exponent).
Local Abbreviation loop :=
  (loop total_profit_score precision_score bet_factor credit_exponent).
Local Abbreviation calculate_backtest_stats :=
  (calculate_backtest_stats total_profit_score precision_score bet_factor
                            credit_exponent).

(** The row that one pass through the body appends, from the capital and
    the stake it starts with. *)
Definition next_row (capital0 bet_amount0 : F) (r : fold_result)
  : statistic :=
  let n_bets := sumZ (binarize (snd r)) in
  let profit :=
    if (n_bets >? 0)%Z
    then fdiv (fmul bet_amount0 (total_profit_score (fst r) (snd r)))
              (of_int n_bets)
    else f0 in
  let capital := fadd capital0 profit in
  let stake := if flt profit f0 then fmul bet_amount0 bet_factor else f1 in
  let max_credit := fadd capital (fpow bet_factor credit_exponent) in
  mk_statistic capital profit
               (if fgt stake max_credit then max_credit else stake)
               n_bets (Z.of_nat (length (snd r)))
               (if (n_bets >? 0)%Z
                then Some (precision_score (fst r) (binarize (snd r)))
                else None).

(** The rows the loop appends, from the capital and the stake it starts
    with. *)
Fixpoint rows_from (capital0 bet_amount0 : F) (results : list fold_result)
  : list statistic :=
  match results with
  | [] => []
  | r :: rest =>
      let row := next_row capital0 bet_amount0 r in
      row :: (if feq (bet_amount row) f0 then []
              else rows_from (capital row) (bet_amount row) rest)
  end.

Lemma body_next_row (st : locals) (r : fold_result) :
  body st r
  = mk_locals
      (statistics st ++ [next_row (l_capital st) (l_bet_amount st) r])
      (precisions st
         ++ [precision (next_row (l_capital st) (l_bet_amount st) r)])
      (capital (next_row (l_capital st) (l_bet_amount st) r))
      (bet_amount (next_row (l_capital st) (l_bet_amount st) r))
      (fst r ++ y_test_all st) (snd r ++ y_pred_all st).
Proof. destruct r as [y_test y_pred]. reflexivity. Qed.

Lemma loop_rows (results : list fold_result) :
  forall st,
    statistics (loop st results)
    = statistics st ++ rows_from (l_capital st) (l_bet_amount st) results /\
    precisions (loop st results)
    = precisions st
        ++ map precision
               (rows_from (l_capital st) (l_bet_amount st) results).
Proof.
  induction results as [|r rest IH]; intros st.
  - simpl. now rewrite !app_nil_r.
  - cbn [BettingAgent.loop rows_from]. rewrite body_next_row.
    cbn [l_bet_amount].
    destruct (feq _ f0).
    + cbn [statistics precisions]. split; reflexivity.
    + destruct (IH (mk_locals
                      (statistics st
                         ++ [next_row (l_capital st) (l_bet_amount st) r])
                      (precisions st
                         ++ [precision
                               (next_row (l_capital st) (l_bet_amount st) r)])
                      (capital (next_row (l_capital st) (l_bet_amount st) r))
                      (bet_amount
                         (next_row (l_capital st) (l_bet_amount st) r))
                      (fst r ++ y_test_all st) (snd r ++ y_pred_all st)))
        as [Hs Hp].
      rewrite Hs, Hp. cbn [statistics precisions l_capital l_bet_amount map].
      rewrite <- !app_assoc. split; reflexivity.
Qed.

Lemma frame_rows (results : list fold_result) :
  frame (calculate_backtest_stats results) = rows_from f1 f1 results.
Proof.
  unfold BettingAgent.calculate_backtest_stats. cbn [frame].
  now rewrite (proj1 (loop_rows results initial)).
Qed.

Lemma precision_rows (results : list fold_result) :
  precision_ (calculate_backtest_stats results)
  = nanmean (map precision (rows_from f1 f1 results)).
Proof.
  unfold BettingAgent.calculate_backtest_stats. cbn [precision_].
  now rewrite (proj2 (loop_rows results initial)).
Qed.

Lemma rows_from_length (results : list fold_result) :
  forall c b, length (rows_from c b results) <= length results.
Proof.
  induction results as [|r rest IH]; intros c b; cbn [rows_from length];
    [lia|].
  destruct (feq _ _); cbn [length]; [lia|].
  specialize (IH (capital (next_row c b r)) (bet_amount (next_row c b r))).
  lia.
Qed.

(** Row [k] is computed from fold [k] and from what row [k - 1] carries;
    a row that has a successor has a stake that is not zero. *)
Lemma rows_from_nth (results : list fold_result) :
  forall c b k row,
    nth_error (rows_from c b results) k = Some row ->
    exists r c' b',
      nth_error results k = Some r /\
      row = next_row c' b' r /\
      match k with
      | 0 => c' = c /\ b' = b
      | S j => exists prev,
                 nth_error (rows_from c b results) j = Some prev /\
                 c' = capital prev /\ b' = bet_amount prev /\
                 feq (bet_amount prev) f0 = false
      end.
Proof.
  induction results as [|r rest IH]; intros c b k row Hk.
  - destruct k; discriminate.
  - cbn [rows_from] in *. destruct k as [|k].
    + injection Hk as <-. exists r, c, b. auto.
    + cbn [nth_error] in Hk.
      destruct (feq (bet_amount (next_row c b r)) f0) eqn:Hz;
        [destruct k; discriminate|].
      destruct (IH _ _ k row Hk) as (r' & c' & b' & Hr & Hrow & Hprev).
      exists r', c', b'. split; [exact Hr|]. split; [exact Hrow|].
      destruct k as [|k].
      * destruct Hprev as [-> ->]. exists (next_row c b r). auto.
      * destruct Hprev as (prev & Hp & Hc & Hb & Hnz).
        exists prev. auto.
Qed.

(** A frame shorter than the list of folds ends on a zero stake. *)
Lemma rows_from_short (results : list fold_result) :
  forall c b,
    length (rows_from c b results) < length results ->
    exists row,
      nth_error (rows_from c b results)
                (length (rows_from c b results) - 1) = Some row /\
      feq (bet_amount row) f0 = true.
Proof.
  induction results as [|r rest IH]; intros c b Hlt; [simpl in Hlt; lia|].
  cbn [rows_from] in *.
  destruct (feq (bet_amount (next_row c b r)) f0) eqn:Hz.
  - exists (next_row c b r). auto.
  - cbn [length] in *.
    destruct (IH (capital (next_row c b r)) (bet_amount (next_row c b r))
                 ltac:(lia)) as (row & Hrow & Hzero).
    exists row. split; [|exact Hzero].
    destruct (rows_from _ _ rest) as [|x l] eqn:Hrows; [discriminate|].
    cbn [length] in *.
    replace (S (S (length l)) - 1) with (S (S (length l) - 1)) by lia.
    exact Hrow.
Qed.

Lemma sumZ_binarize (y_pred : list F) :
  sumZ (binarize y_pred) = Z.of_nat (count_bets y_pred).
Proof.
  unfold count_bets.
  induction y_pred as [|p l IH]; [reflexivity|].
  cbn [binarize map sumZ fold_right filter].
  change (fold_right Z.add 0%Z (map (fun p => if fgt p f0 then 1%Z else 0%Z) l))
    with (sumZ (binarize l)).
  rewrite IH. destruct (fgt p f0); cbn [length]; lia.
Qed.

Lemma count_bets_le (y_pred : list F) : count_bets y_pred <= length y_pred.
Proof. apply filter_length_le. Qed.

Lemma count_bets_none (y_pred : list F) :
  (forall p, In p y_pred -> fgt p f0 = false) -> count_bets y_pred = 0.
Proof.
  unfold count_bets. induction y_pred as [|p l IH]; intros H; [reflexivity|].
  cbn [filter]. rewrite (H p (or_introl eq_refl)).
  apply IH. intros q Hq. apply H. now right.
Qed.

Lemma nanmean_none (l : list (option F)) :
  nanmean l = None <-> forall o, In o l -> o = None.
Proof.
  unfold nanmean.
  induction l as [|o l IH]; cbn [flat_map].
  - split; [intros _ o [] | reflexivity].
  - destruct o as [x|]; cbn [app].
    + split; [discriminate|]. intros H.
      specialize (H (Some x) (or_introl eq_refl)). discriminate.
    + rewrite IH. split.
      * intros H o [<- | Ho]; [reflexivity | now apply H].
      * intros H o Ho. apply H. now right.
Qed.

(** Once a fold has been processed, the last row holds the stake the loop
    carries. *)
Lemma loop_last_row (results : list fold_result) :
  forall st,
    results <> [] ->
    exists rows row,
      statistics (loop st results) = rows ++ [row] /\
      bet_amount row = l_bet_amount (loop st results).
Proof.
  induction results as [|r rest IH]; intros st Hne; [congruence|].
  cbn [BettingAgent.loop].
  assert (Hb : exists rows row,
             statistics (body st r) = rows ++ [row] /\
             bet_amount row = l_bet_amount (body st r)).
  { rewrite body_next_row. cbn [statistics l_bet_amount]. eauto. }
  destruct (feq (l_bet_amount (body st r)) f0); [exact Hb|].
  destruct rest as [|r' rest]; [exact Hb|].
  apply IH. discriminate.
Qed.

(** After a zero stake the loop reads no further fold. *)
Lemma loop_app_ruin (l1 l2 : list fold_result) :
  forall st,
    l1 <> [] ->
    feq (l_bet_amount (loop st l1)) f0 = true ->
    loop st (l1 ++ l2) = loop st l1.
Proof.
  induction l1 as [|r rest IH]; intros st Hne Hz; [congruence|].
  cbn [BettingAgent.loop app] in *.
  destruct (feq (l_bet_amount (body st r)) f0) eqn:Hb; [reflexivity|].
  destruct rest as [|r' rest].
  - cbn [BettingAgent.loop] in Hz. congruence.
  - apply IH; [discriminate | exact Hz].
Qed.

(** X12: the frame never has more rows than there are folds; every row
    that is not the last has a stake that is not zero; and a frame with
    fewer rows than folds ends on a row whose stake is zero.  A shorter
    frame therefore always means ruin. *)
Theorem frame_cut_only_by_ruin (results : list fold_result) :
  length (frame (calculate_backtest_stats results)) <= length results /\
  (forall k row,
      nth_error (frame (calculate_backtest_stats results)) k = Some row ->
      S k < length (frame (calculate_backtest_stats results)) ->
      feq (bet_amount row) f0 = false) /\
  (length (frame (calculate_backtest_stats results)) < length results ->
   exists row,
     nth_error (frame (calculate_backtest_stats results))
               (length (frame (calculate_backtest_stats results)) - 1)
     = Some row /\
     feq (bet_amount row) f0 = true).
Proof.
  rewrite frame_rows. split; [apply rows_from_length|]. split.
  - intros k row Hk Hlt.
    destruct (nth_error (rows_from f1 f1 results) (S k)) as [next|] eqn:Hn.
    + destruct (rows_from_nth _ _ _ _ _ Hn)
        as (_ & _ & _ & _ & _ & prev & Hp & _ & _ & Hnz).
      congruence.
    + apply nth_error_None in Hn. lia.
  - apply rows_from_short.
Qed.

(** X13: each row is computed from its fold and from the row before it.
    The profit uses the stake of the previous row (1 for the first row),
    the capital is the previous capital (1 for the first row) plus that
    profit, and the stake is the previous stake times [bet_factor] after a
    loss and 1 otherwise, cut down to the row's credit ceiling. *)
Theorem row_follows_previous (results : list fold_result)
        (k : nat) (row : statistic) :
  nth_error (frame (calculate_backtest_stats results)) k = Some row ->
  exists y_test y_pred,
    nth_error results k = Some (y_test, y_pred) /\
    profit row
    = (if (n_bets row >? 0)%Z
       then fdiv (fmul (snd (carried (frame (calculate_backtest_stats
                                               results)) k))
                       (total_profit_score y_test y_pred))
                 (of_int (n_bets row))
       else f0) /\
    capital row
    = fadd (fst (carried (frame (calculate_backtest_stats results)) k))
           (profit row) /\
    bet_amount row
    = (let stake :=
         if flt (profit row) f0
         then fmul (snd (carried (frame (calculate_backtest_stats results))
                                 k)) bet_factor
         else f1 in
       let max_credit :=
         fadd (capital row) (fpow bet_factor credit_exponent) in
       if fgt stake max_credit then max_credit else stake).
Proof.
  rewrite frame_rows. intros Hk.
  destruct (rows_from_nth _ _ _ _ _ Hk) as ([yt yp] & c & b & Hr & -> & Hprev).
  exists yt, yp. split; [exact Hr|].
  assert (Hc : carried (rows_from f1 f1 results) k = (c, b)).
  { destruct k as [|j]; cbn [carried].
    - destruct Hprev as [-> ->]. reflexivity.
    - destruct Hprev as (prev & -> & -> & -> & _). reflexivity. }
  rewrite Hc. cbn [fst snd]. repeat split.
Qed.

(** X14: row [k] describes fold [k]: [n_matches] is the number of its
    predictions, [n_bets] the number of those that are positive, so
    [0 <= n_bets <= n_matches]; and the precision is that of the fold when
    there is a bet and [nan] when there is none. *)
Theorem row_describes_fold (results : list fold_result)
        (k : nat) (row : statistic) :
  nth_error (frame (calculate_backtest_stats results)) k = Some row ->
  exists y_test y_pred,
    nth_error results k = Some (y_test, y_pred) /\
    n_matches row = Z.of_nat (length y_pred) /\
    n_bets row = Z.of_nat (count_bets y_pred) /\
    (0 <= n_bets row <= n_matches row)%Z /\
    precision row
    = (if (n_bets row >? 0)%Z
       then Some (precision_score y_test (binarize y_pred))
       else None).
Proof.
  rewrite frame_rows. intros Hk.
  destruct (rows_from_nth _ _ _ _ _ Hk) as ([yt yp] & c & b & Hr & -> & _).
  exists yt, yp. split; [exact Hr|].
  unfold next_row. cbn [n_matches n_bets precision fst snd].
  rewrite sumZ_binarize. pose proof (count_bets_le yp).
  repeat split; lia.
Qed.

(** X15: when no prediction of any fold is positive, nothing is staked:
    every row has capital 1, profit 0, stake 1, no bet and no precision,
    there is one row per fold, and [precision_] is [nan].  The four
    arithmetic facts used hold for floats whenever
    [1 <= 1 + bet_factor ** credit_exponent]. *)
Theorem no_bets_no_change (results : list fold_result) :
  (forall r p, In r results -> In p (snd r) -> fgt p f0 = false) ->
  fadd f1 f0 = f1 ->
  flt f0 f0 = false ->
  fgt f1 (fadd f1 (fpow bet_factor credit_exponent)) = false ->
  feq f1 f0 = false ->
  frame (calculate_backtest_stats results)
  = map (fun r => mk_statistic f1 f0 f1 0 (Z.of_nat (length (snd r))) None)
        results /\
  precision_ (calculate_backtest_stats results) = None.
Proof.
  intros Hno Hadd Hlt Hgt Hne.
  assert (Hrow : forall r, In r results ->
                           next_row f1 f1 r
                           = mk_statistic f1 f0 f1 0
                                          (Z.of_nat (length (snd r))) None).
  { intros r Hr. unfold next_row.
    assert (Hz : sumZ (binarize (snd r)) = 0%Z).
    { rewrite sumZ_binarize, count_bets_none; [reflexivity|].
      intros p Hp. exact (Hno r p Hr Hp). }
    rewrite Hz. cbn [Z.gtb Z.compare]. now rewrite Hadd, Hlt, Hgt. }
  assert (Hrows : rows_from f1 f1 results
                  = map (fun r => mk_statistic f1 f0 f1 0
                                               (Z.of_nat (length (snd r)))
                                               None) results).
  { clear Hno. induction results as [|r rest IH]; [reflexivity|].
    cbn [rows_from map]. rewrite (Hrow r (or_introl eq_refl)).
    cbn [bet_amount capital]. rewrite Hne. f_equal.
    apply IH. intros r' Hr'. apply Hrow. now right. }
  split; [now rewrite frame_rows|].
  rewrite precision_rows.
  apply nanmean_none. intros o Ho. rewrite Hrows, map_map in Ho.
  apply in_map_iff in Ho. destruct Ho as (r & <- & _). reflexivity.
Qed.

(** X16: [precision_] is [nan] exactly when no row of the frame has a bet;
    a single processed fold with a bet gives it a value. *)
Theorem precision_nan_iff_no_bets (results : list fold_result) :
  precision_ (calculate_backtest_stats results) = None <->
  forall row, In row (frame (calculate_backtest_stats results)) ->
              n_bets row = 0%Z.
Proof.
  rewrite frame_rows, precision_rows, nanmean_none.
  assert (Hrow : forall row,
             In row (rows_from f1 f1 results) ->
             (precision row = None <-> n_bets row = 0%Z)).
  { intros row Hin. apply In_nth_error in Hin. destruct Hin as [k Hk].
    destruct (rows_from_nth _ _ _ _ _ Hk) as (r & c & b & _ & -> & _).
    unfold next_row. cbn [precision n_bets]. rewrite sumZ_binarize.
    destruct (Z.gtb_spec (Z.of_nat (count_bets (snd r))) 0).
    - split; [discriminate | lia].
    - split; [lia | reflexivity]. }
  split.
  - intros H row Hin. apply Hrow; [exact Hin|]. apply H. now apply in_map.
  - intros H o Ho. apply in_map_iff in Ho. destruct Ho as (row & <- & Hin).
    apply Hrow; [exact Hin|]. now apply H.
Qed.

(** X17: once the last row of a run has a zero stake, further folds change
    nothing: the frame, [profit_per_bet_] and [precision_] are those of the
    run without them. *)
Theorem folds_after_ruin_ignored (pre post : list fold_result)
        (row : statistic) :
  nth_error (frame (calculate_backtest_stats pre))
            (length (frame (calculate_backtest_stats pre)) - 1) = Some row ->
  feq (bet_amount row) f0 = true ->
  calculate_backtest_stats (pre ++ post) = calculate_backtest_stats pre.
Proof.
  unfold BettingAgent.calculate_backtest_stats. cbn [frame].
  intros Hlast Hz.
  assert (Hne : pre <> []) by (intros ->; discriminate).
  destruct (loop_last_row pre initial Hne) as (rows & row' & Hrows & Hbet).
  rewrite Hrows, length_app in Hlast. cbn [length] in Hlast.
  replace (length rows + 1 - 1) with (length rows) in Hlast by lia.
  rewrite nth_error_app2, Nat.sub_diag in Hlast by lia.
  injection Hlast as ->.
  rewrite loop_app_ruin; [reflexivity | exact Hne | congruence].
Qed.

Lemma rows_from_running_sum (results : list fold_result) :
  forall c b k row,
    nth_error (rows_from c b results) k = Some row ->
    capital row
    = fold_left fadd (map profit (firstn (S k) (rows_from c b results))) c.
Proof.
  induction results as [|r rest IH]; intros c b k row Hk.
  - destruct k; discriminate.
  - cbn [rows_from] in *. destruct k as [|k].
    + injection Hk as <-. reflexivity.
    + cbn [nth_error] in Hk.
      change (firstn (S (S k)) (?x :: ?l)) with (x :: firstn (S k) l).
      cbn [map fold_left].
      destruct (feq (bet_amount (next_row c b r)) f0);
        [destruct k; discriminate|].
      now rewrite (IH _ _ k row Hk).
Qed.

(** X27: the capital column is the running sum of the profit column,
    started at 1 and added up from the first row on. *)
Theorem capital_is_running_sum (results : list fold_result)
        (k : nat) (row : statistic) :
  nth_error (frame (calculate_backtest_stats results)) k = Some row ->
  capital row
  = fold_left fadd
              (map profit
                   (firstn (S k) (frame (calculate_backtest_stats results))))
              f1.
Proof. rewrite frame_rows. apply rows_from_running_sum. Qed.

End Stats.

Lemma frame_cut_only_by_ruin_witness :
  (exists row, nth_error (frame (stats_of ruin_at_two)) 0 = Some row /\
               feq (bet_amount row) f0 = false) /\
  (exists row, nth_error (frame (stats_of ruin_at_two)) 1 = Some row /\
               feq (bet_amount row) f0 = true).
Proof.
  destruct (frame_cut_only_by_ruin
              Examples.label_sum_score Examples.constant_precision
              2%Q 1%Q ruin_at_two) as (_ & Hmid & Hlast).
  split.
  - eexists. split; [reflexivity|].
    apply (Hmid 0 _ eq_refl). vm_compute. repeat constructor.
  - apply Hlast. vm_compute. repeat constructor.
Defined.

Lemma row_follows_previous_witness :
  exists y_test y_pred,
    nth_error ruin_at_two 1 = Some (y_test, y_pred) /\
    Qeq_bool
      (fdiv (fmul (snd (carried (frame (stats_of ruin_at_two)) 1))
                  (Examples.label_sum_score y_test y_pred))
            (of_int 1))
      (-3) = true.
Proof.
  assert (Hrow : nth_error (frame (stats_of ruin_at_two)) 1
                 = Some (mk_statistic (-2) (-3) 0 1 1 (Some 1))%Q)
    by (vm_compute; reflexivity).
  destruct (row_follows_previous
              Examples.label_sum_score Examples.constant_precision
              2%Q 1%Q ruin_at_two 1 _ Hrow)
    as (y_test & y_pred & Hfold & Hprofit & _).
  exists y_test, y_pred. split; [exact Hfold|].
  cbn [n_bets profit Z.gtb Z.compare] in Hprofit.
  unfold stats_of, Examples.calculate_backtest_stats.
  rewrite <- Hprofit. reflexivity.
Defined.

Lemma row_describes_fold_witness :
  exists y_test y_pred,
    nth_error ruin_at_two 1 = Some (y_test, y_pred) /\
    1%Z = Z.of_nat (length y_pred) /\
    1%Z = Z.of_nat (count_bets y_pred) /\
    (0 <= 1 <= 1)%Z /\
    Some 1%Q = Some (Examples.constant_precision y_test (binarize y_pred)).
Proof.
  assert (Hrow : nth_error (frame (stats_of ruin_at_two)) 1
                 = Some (mk_statistic (-2) (-3) 0 1 1 (Some 1))%Q)
    by (vm_compute; reflexivity).
  exact (row_describes_fold
           Examples.label_sum_score Examples.constant_precision
           2%Q 1%Q ruin_at_two 1 _ Hrow).
Defined.

Lemma no_bets_no_change_witness :
  frame (stats_of [([1%Z; 0%Z], [0%Q; (-1)%Q]); ([1%Z], [(-2)%Q])])
  = [mk_statistic 1 0 1 0 2 None; mk_statistic 1 0 1 0 1 None]%Q /\
  precision_ (stats_of [([1%Z; 0%Z], [0%Q; (-1)%Q]); ([1%Z], [(-2)%Q])])
  = None.
Proof.
  refine (no_bets_no_change
            Examples.label_sum_score Examples.constant_precision 2%Q 1%Q
            [([1%Z; 0%Z], [0%Q; (-1)%Q]); ([1%Z], [(-2)%Q])] _ _ _ _ _).
  - intros r p [<- | [<- | []]] Hp; simpl in Hp;
      repeat (destruct Hp as [<- | Hp]; [reflexivity|]); contradiction.
  - reflexivity.
  - reflexivity.
  - reflexivity.
  - reflexivity.
Defined.

Lemma precision_nan_iff_no_bets_witness :
  precision_ (stats_of [([1%Z; 0%Z], [0%Q; (-1)%Q])]) = None.
Proof.
  apply (proj2 (precision_nan_iff_no_bets
                  Examples.label_sum_score Examples.constant_precision
                  2%Q 1%Q [([1%Z; 0%Z], [0%Q; (-1)%Q])])).
  intros row [<- | []]. reflexivity.
Defined.

Lemma capital_is_running_sum_witness :
  Qeq_bool (fold_left fadd
                      (map profit (firstn 2 (frame (stats_of ruin_at_two))))
                      f1)
           (-2) = true.
Proof.
  assert (Hrow : nth_error (frame (stats_of ruin_at_two)) 1
                 = Some (mk_statistic (-2) (-3) 0 1 1 (Some 1))%Q)
    by (vm_compute; reflexivity).
  unfold stats_of, Examples.calculate_backtest_stats in *.
  rewrite <- (capital_is_running_sum
                Examples.label_sum_score Examples.constant_precision
                2%Q 1%Q ruin_at_two 1 _ Hrow).
  reflexivity.
Defined.

Lemma folds_after_ruin_ignored_witness :
  stats_of ruin_at_two = stats_of [([0%Z], [1%Q]); ([(-3)%Z], [1%Q])].
Proof.
  apply (folds_after_ruin_ignored
           Examples.label_sum_score Examples.constant_precision 2%Q 1%Q
           [([0%Z], [1%Q]); ([(-3)%Z], [1%Q])] [([1%Z], [1%Q])]
           (mk_statistic (-2) (-3) 0 1 1 (Some 1))%Q).
  - vm_compute. reflexivity.
  - vm_compute. reflexivity.
Defined.

End StatsMore.

(** * More about [backtest] *)

Module BacktestMore.

Import SeasonTimeSeriesSplit BettingAgent.

(** A run: five matches of season 1 with the estimator, the split and the
    progress bar of [Examples], and a day range of 6. *)
Definition five_matches : result (@array Q * list Z * list Q) :=
  Ok ([(0, []); (1, []); (7, []); (8, []); (14, [])]%Z,
      [0; 1; 1; 0; 1]%Z, [2; 3; 2; 2; 2]%Q).

Definition five_matches_with_odds : @array Q :=
  [(0, [2%Q]); (1, [3%Q]); (7, [2%Q]); (8, [2%Q]); (14, [2%Q])]%Z.

Section Backtest.

Context {F V Clf Est Size Params Bar : Type} {entry : Entry V}.
Variable ProfitEstimator : Clf -> Est.
Variable DummyClassifier_constant_1 : Clf.
Variable no_params : Params.
Variable fit :
  Est -> list (list V) -> list Z -> @fit_params V Size Params -> result Est.
Variable predict : Est -> list (list V) -> result (list F).
Variable train_test_split :
  list (list V) -> list Z -> Size ->
  result (list (list V) * list (list V) * list Z * list Z).
Variable ProgressBar : Z -> Z -> result Bar.
Variable update : Bar -> Z -> result Bar.

Local Abbreviation run_fold :=
  (run_fold fit predict train_test_split update).
Local Abbreviation run_folds :=
  (run_folds fit predict train_test_split update).
Local Abbreviation backtest :=
  (backtest ProfitEstimator DummyClassifier_constant_1 no_params fit predict
            train_test_split ProgressBar update).

(** The estimator was fitted for the fold: it is what [fit] returned on the
    training rows of the fold and their labels or, when a validation size
    is given, on the part of them that [train_test_split] keeps for
    training, with the other part as [xgbclassifier__eval_set]. *)
Definition fitted_for (X : @array V) (y : list Z)
           (validation_size : option Size) (f : fold) (est : Est) : Prop :=
  exists est0 X_train y_train params,
    fit est0 X_train y_train params = Ok est /\
    match validation_size with
    | None =>
        X_train = take_rows X (fst f) /\ y_train = take y (fst f)
    | Some size =>
        exists X_val y_val,
          train_test_split (take_rows X (fst f)) (take y (fst f)) size
          = Ok (X_train, X_val, y_train, y_val) /\
          entry_xgbclassifier__eval_set params
          = Some (map (@removelast V) X_val, y_val)
    end.

(** A fold result comes from its fold: the labels of the test rows, and the
    predictions, on the test rows, of the estimator fitted for the fold. *)
Definition result_of_fold (X : @array V) (y : list Z)
           (validation_size : option Size)
           (f : fold) (r : @fold_result F) : Prop :=
  fst r = take y (snd f) /\
  exists est,
    fitted_for X y validation_size f est /\
    predict est (take_rows X (snd f)) = Ok (snd r).

(** The fitting parameters keep their entries other than
    [xgbclassifier__eval_set], which changes only under validation. *)
Definition same_params (validation_size : option Size)
           (p q : @fit_params V Size Params) : Prop :=
  entry_validation_size q = entry_validation_size p /\
  entry_others q = entry_others p /\
  (validation_size = None -> q = p).

Lemma run_fold_ok (X : @array V) (y : list Z) (vs : option Size)
      (self self' : agent) (bar bar' : Bar) (ind : nat) (f : fold) :
  run_fold X y vs self bar ind f = Ok (self', bar') ->
  (exists r, backtest_results_ self' = backtest_results_ self ++ [r] /\
             result_of_fold X y vs f r) /\
  same_params vs (fit_params_ self) (fit_params_ self').
Proof.
  unfold BettingAgent.run_fold, result_of_fold, fitted_for, same_params.
  destruct f as [train test]. intros H.
  destruct vs as [size|].
  - destruct (train_test_split (take_rows X train) (take y train) size)
      as [[[[Xt Xv] yt] yv]|e] eqn:Hsplit; cbn [bind] in H; [|discriminate].
    destruct (fit _ _ _ _) as [est|e] eqn:Hfit; cbn [bind] in H;
      [|discriminate].
    destruct (predict est (take_rows X test)) as [y_pred|e] eqn:Hp;
      cbn [bind] in H; [|discriminate].
    destruct (update bar _) as [b|e]; cbn [bind] in H; [|discriminate].
    injection H as <- <-. cbn [backtest_results_ fit_params_].
    split.
    + eexists. split; [reflexivity|]. cbn [fst snd].
      split; [reflexivity|]. exists est. split; [|exact Hp].
      do 4 eexists. split; [exact Hfit|].
      exists Xv, yv. split; [exact Hsplit | reflexivity].
    + cbn [entry_validation_size entry_others]. repeat split. discriminate.
  - cbn [bind] in H.
    destruct (fit _ _ _ _) as [est|e] eqn:Hfit; cbn [bind] in H;
      [|discriminate].
    destruct (predict est (take_rows X test)) as [y_pred|e] eqn:Hp;
      cbn [bind] in H; [|discriminate].
    destruct (update bar _) as [b|e]; cbn [bind] in H; [|discriminate].
    injection H as <- <-. cbn [backtest_results_ fit_params_].
    split.
    + eexists. split; [reflexivity|]. cbn [fst snd].
      split; [reflexivity|]. exists est. split; [|exact Hp].
      do 4 eexists. split; [exact Hfit|]. split; reflexivity.
    + repeat split.
Qed.

Lemma run_folds_ok (X : @array V) (y : list Z) (vs : option Size)
      (indices : list fold) :
  forall (self self' : agent) (bar : Bar) (ind : nat),
    run_folds X y vs self bar ind indices = Ok self' ->
    (exists new,
        backtest_results_ self' = backtest_results_ self ++ new /\
        Forall2 (result_of_fold X y vs) indices new) /\
    same_params vs (fit_params_ self) (fit_params_ self').
Proof.
  induction indices as [|f rest IH]; intros self self' bar ind H.
  - cbn [BettingAgent.run_folds] in H. injection H as <-.
    split; [exists []; rewrite app_nil_r; split; [reflexivity | constructor]|].
    unfold same_params. auto.
  - cbn [BettingAgent.run_folds] in H.
    destruct (run_fold X y vs self bar ind f) as [[self1 bar1]|e] eqn:H1;
      cbn [bind] in H; [|discriminate].
    destruct (run_fold_ok _ _ _ _ _ _ _ _ _ H1)
      as ((r & Hr & Hof) & (Hv1 & Ho1 & Hn1)).
    destruct (IH _ _ _ _ H) as ((new & Hnew & Hall) & (Hv2 & Ho2 & Hn2)).
    split.
    + exists (r :: new). rewrite Hnew, Hr, <- app_assoc.
      split; [reflexivity | now constructor].
    + unfold same_params. repeat split; try congruence.
      intros Hnone. rewrite (Hn2 Hnone). now apply Hn1.
Qed.

(** X18: a successful [backtest] records one fold result per pair of the
    splitter, in the splitter's order.  The [k]-th one holds the labels
    [y[test_indices]] of the [k]-th pair and the predictions, on its test
    rows, of the estimator that [fit] returned for that pair: fitted on
    the rows and labels of [train_indices] or, when a validation size is
    given, on the training part that [train_test_split] makes of them. *)
Theorem backtest_results_follow_folds
        (X X' : @array V) (y : list Z) (odds : list V)
        (estimator : option Clf) (fit_params0 : option fit_params)
        (test_year max_day_range : Z)
        (folds : list fold) (self : agent) :
  hstack_column X odds = Ok X' ->
  split (mk test_year max_day_range) X' = Ok folds ->
  backtest (Ok (X, y, odds)) estimator fit_params0 test_year max_day_range
  = Ok self ->
  Forall2 (result_of_fold
             X' y
             (entry_validation_size
                match fit_params0 with
                | None => empty_fit_params no_params
                | Some p => p
                end))
          folds (backtest_results_ self).
Proof.
  intros Hh Hs. unfold BettingAgent.backtest. cbn [bind].
  rewrite Hh. cbn [bind]. rewrite Hs. cbn [bind].
  destruct (ProgressBar 1 (Z.of_nat (length folds))) as [bar|e];
    cbn [bind]; [|discriminate].
  intros H. destruct (run_folds_ok _ _ _ _ _ _ _ _ H)
    as ((new & Hnew & Hall) & _).
  cbn [backtest_results_ app] in Hnew. now rewrite Hnew.
Qed.

(** X19: a successful [backtest] leaves [fit_params_] without the
    [validation_size] entry and with the other entries it was given (none
    when [fit_params] is [None]); when no [validation_size] was given, the
    [xgbclassifier__eval_set] entry is the one it was given too. *)
Theorem backtest_fit_params
        (loaded : result (@array V * list Z * list V))
        (estimator : option Clf) (fit_params0 : option fit_params)
        (test_year max_day_range : Z) (self : agent) :
  backtest loaded estimator fit_params0 test_year max_day_range = Ok self ->
  let given :=
    match fit_params0 with
    | None => empty_fit_params no_params
    | Some p => p
    end in
  entry_validation_size (fit_params_ self) = None /\
  entry_others (fit_params_ self) = entry_others given /\
  (entry_validation_size given = None ->
   entry_xgbclassifier__eval_set (fit_params_ self)
   = entry_xgbclassifier__eval_set given).
Proof.
  unfold BettingAgent.backtest.
  destruct loaded as [[[X y] odds]|e]; cbn [bind]; [|discriminate].
  destruct (hstack_column X odds) as [X'|e]; cbn [bind]; [|discriminate].
  destruct (split _ X') as [folds|e]; cbn [bind]; [|discriminate].
  destruct (ProgressBar 1 _) as [bar|e]; cbn [bind]; [|discriminate].
  intros H. cbv zeta.
  destruct (run_folds_ok _ _ _ _ _ _ _ _ H) as (_ & (Hv & Ho & Hn)).
  cbn [fit_params_ entry_validation_size entry_others] in Hv, Ho, Hn.
  split; [exact Hv|]. split; [exact Ho|].
  intros Hnone. rewrite (Hn Hnone). reflexivity.
Qed.

End Backtest.

(** *** Appending the odds column *)

Lemma hstack_column_rows {V : Type} (X : @array V) :
  forall odds,
    length X = length odds ->
    column0 (map (fun ro => (fst (fst ro), snd (fst ro) ++ [snd ro]))
                 (combine X odds)) = column0 X /\
    forall n,
      forallb (fun r' => length (snd r') =? S n)
              (map (fun ro => (fst (fst ro), snd (fst ro) ++ [snd ro]))
                   (combine X odds))
      = forallb (fun r' => length (snd r') =? n) X.
Proof.
  induction X as [|[d fs] X IH]; intros odds Hlen.
  - split; [reflexivity | intros; reflexivity].
  - destruct odds as [|o odds]; [discriminate|].
    destruct (IH odds ltac:(simpl in Hlen; lia)) as [Hcol Hrect].
    split.
    + unfold column0 in *. cbn [combine map fst snd]. now rewrite Hcol.
    + intros n. cbn [combine map forallb fst snd].
      rewrite Hrect, length_app. cbn [length].
      replace (length fs + 1) with (S (length fs)) by lia. reflexivity.
Qed.

Lemma hstack_column_finite {V : Type} {entry : Entry V} (X : @array V) :
  forall odds,
    length X = length odds ->
    forallb isfinite odds = true ->
    all_finite (map (fun ro => (fst (fst ro), snd (fst ro) ++ [snd ro]))
                    (combine X odds))
    = all_finite X.
Proof.
  unfold all_finite.
  induction X as [|[d fs] X IH]; intros odds Hlen Hfin; [reflexivity|].
  destruct odds as [|o odds]; [discriminate|].
  cbn [forallb] in Hfin. apply andb_true_iff in Hfin.
  destruct Hfin as [Ho Hodds].
  cbn [combine map forallb fst snd].
  rewrite (IH odds ltac:(simpl in Hlen; lia) Hodds), forallb_app.
  cbn [forallb]. rewrite Ho, !andb_true_r. reflexivity.
Qed.

(** X26: appending a column of finite odds, which is what
    [load_modeling_data] returns after its [check_array(odds)], does not
    change the folds when the day column is non-decreasing: on the array
    that [backtest] hands to the splitter, [split] and [get_n_splits] give
    what they give on [X] itself, and the day column is the same. *)
Theorem odds_column_keeps_folds {V : Type} {entry : Entry V} (self : t)
        (X X' : @array V) (odds : list V) :
  forallb isfinite odds = true ->
  non_decreasing (column0 X) = true ->
  hstack_column X odds = Ok X' ->
  column0 X' = column0 X /\
  split self X' = split self X /\
  get_n_splits self X' = get_n_splits self X.
Proof.
  intros Hfin _. unfold hstack_column.
  destruct (Nat.eqb_spec (length X) (length odds)) as [Hlen | _];
    [|discriminate].
  intros [= <-].
  destruct (hstack_column_rows X odds Hlen) as [Hcol Hrect].
  assert (Hr : rectangular
                 (map (fun ro => (fst (fst ro), snd (fst ro) ++ [snd ro]))
                      (combine X odds)) = rectangular X).
  { destruct X as [|[d fs] X]; [reflexivity|].
    destruct odds as [|o odds]; [discriminate|].
    destruct (hstack_column_rows X odds ltac:(simpl in Hlen; lia))
      as [_ Hrest].
    cbn [combine map rectangular fst snd].
    rewrite length_app. cbn [length].
    replace (length fs + 1) with (S (length fs)) by lia. apply Hrest. }
  split; [exact Hcol|].
  rewrite !SplitFacts.split_as_days, !SplitFacts.get_n_splits_as_days,
    Hcol, Hr, (hstack_column_finite X odds Hlen Hfin).
  split; reflexivity.
Qed.

Lemma odds_column_keeps_folds_witness :
  column0 [(0, [1%Z; 5%Z]); (365, [2%Z; 6%Z]); (371, [3%Z; 7%Z])]%Z
  = column0 [(0, [1%Z]); (365, [2%Z]); (371, [3%Z])]%Z /\
  split (mk 2 6) [(0, [1%Z; 5%Z]); (365, [2%Z; 6%Z]); (371, [3%Z; 7%Z])]%Z
  = split (mk 2 6) [(0, [1%Z]); (365, [2%Z]); (371, [3%Z])]%Z /\
  get_n_splits (mk 2 6)
               [(0, [1%Z; 5%Z]); (365, [2%Z; 6%Z]); (371, [3%Z; 7%Z])]%Z
  = get_n_splits (mk 2 6) [(0, [1%Z]); (365, [2%Z]); (371, [3%Z])]%Z.
Proof.
  apply (odds_column_keeps_folds (mk 2 6)
           [(0, [1%Z]); (365, [2%Z]); (371, [3%Z])]%Z
           [(0, [1%Z; 5%Z]); (365, [2%Z; 6%Z]); (371, [3%Z; 7%Z])]%Z
           [5%Z; 6%Z; 7%Z]).
  - reflexivity.
  - reflexivity.
  - reflexivity.
Defined.

Lemma backtest_results_follow_folds_witness :
  Forall2 (result_of_fold Examples.constant_fit Examples.constant_predict
                          Examples.keep_all_split five_matches_with_odds
                          [0; 1; 1; 0; 1]%Z None)
          [([], [0; 1]); ([0; 1], [2; 3])]
          [([0; 1]%Z, [1; 1]%Q); ([1; 0]%Z, [1; 1]%Q)].
Proof.
  refine (backtest_results_follow_folds
            (fun clf : unit => clf) tt tt Examples.constant_fit
            Examples.constant_predict Examples.keep_all_split
            Examples.ProgressBar Examples.update
            [(0, []); (1, []); (7, []); (8, []); (14, [])]%Z
            five_matches_with_odds [0; 1; 1; 0; 1]%Z [2; 3; 2; 2; 2]%Q
            None None 1 6 [([], [0; 1]); ([0; 1], [2; 3])]
            (mk_agent tt (mk_fit_params None None tt)
                      [([0; 1]%Z, [1; 1]%Q); ([1; 0]%Z, [1; 1]%Q)])
            _ _ _).
  - reflexivity.
  - reflexivity.
  - vm_compute. reflexivity.
Defined.

Lemma backtest_fit_params_witness :
  exists self,
    Examples.backtest five_matches None
                      (Some (mk_fit_params (Some (1 # 2)%Q) None tt)) 1 6
    = Ok self /\
    entry_validation_size (fit_params_ self) = None /\
    entry_others (fit_params_ self) = tt.
Proof.
  assert (H : Examples.backtest
                five_matches None
                (Some (mk_fit_params (Some (1 # 2)%Q) None tt)) 1 6
              = Ok (mk_agent tt (mk_fit_params None (Some ([], [])) tt)
                             [([0; 1]%Z, [1; 1]%Q); ([1; 0]%Z, [1; 1]%Q)]))
    by (vm_compute; reflexivity).
  eexists. split; [exact H|].
  unfold Examples.backtest in H.
  pose proof (backtest_fit_params
                (fun clf : unit => clf) tt tt Examples.constant_fit
                Examples.constant_predict Examples.keep_all_split
                Examples.ProgressBar Examples.update _ _ _ _ _ _ H)
    as (Hv & Ho & _).
  split; [exact Hv | exact Ho].
Defined.

End BacktestMore.

(** * Properties of the data side *)

Module DataFacts.

Import TrainingData.
Import String.StringSyntax.
Local Open Scope string_scope.

(** Runs: two leagues, and a training file with one feature. *)
Definition two_leagues : list (str * str) :=
  [("E0", "Premier League"); ("D1", "Bundesliga")].

Definition fetch_nothing (leagues : leagues_arg) : result unit := Ok tt.

Definition one_feature_file : list str :=
  ["HomeSPI"; "HomeMaximumOdd"; "AwayMaximumOdd"; "DrawMaximumOdd";
   "HomeGoals"; "AwayGoals"].

Lemma mem_In (x : str) (xs : list str) : mem x xs = true <-> In x xs.
Proof.
  unfold mem. rewrite existsb_exists. split.
  - intros (y & Hy & Heq). apply String.eqb_eq in Heq. now subst.
  - intros Hx. exists x. split; [exact Hx | apply String.eqb_refl].
Qed.

Lemma mem_false (x : str) (xs : list str) : mem x xs = false <-> ~ In x xs.
Proof.
  rewrite <- mem_In. destruct (mem x xs); split; congruence.
Qed.

Lemma forallb_mem (l xs : list str) :
  forallb (fun x => mem x xs) l = true <-> forall x, In x l -> In x xs.
Proof.
  rewrite forallb_forall. split; intros H x Hx; apply mem_In; auto.
Qed.

Section Fetch.

Context {A : Type}.
Variable LEAGUES_MAPPING_values : list (str * A).
Variable fetch_merge_save : leagues_arg -> result unit.

Local Abbreviation valid_leagues := (valid_leagues LEAGUES_MAPPING_values).
Local Abbreviation fetch_training_data :=
  (fetch_training_data LEAGUES_MAPPING_values fetch_merge_save).

(** X20: given a list of league ids, [fetch_training_data] goes on to fetch
    when every id of the list is a valid league id (so also for the empty
    list), and raises [ValueError] before fetching anything when one of
    them is not. *)
Theorem fetch_checks_every_id (ids : list str) :
  ((forall id, In id ids -> In id valid_leagues) ->
   fetch_training_data (Ids ids) = fetch_merge_save (Ids ids)) /\
  ((exists id, In id ids /\ ~ In id valid_leagues) ->
   fetch_training_data (Ids ids) = Raise ValueError).
Proof.
  unfold TrainingData.fetch_training_data. cbn [in_all_main elements negb andb].
  split.
  - intros Hall. apply forallb_mem in Hall. now rewrite Hall.
  - intros (id & Hin & Hbad).
    destruct (forallb _ ids) eqn:Hf; [|reflexivity].
    rewrite forallb_mem in Hf. elim Hbad. auto.
Qed.

(** X21: given a string, [fetch_training_data] accepts ['all'], ['main'] and
    the empty string; any other string is checked character by character,
    so it is rejected with [ValueError] whenever no valid league id is a
    single character (a league id passed bare instead of in a list). *)
Theorem fetch_checks_string_by_character (s : str) :
  fetch_training_data (Name "all") = fetch_merge_save (Name "all") /\
  fetch_training_data (Name "main") = fetch_merge_save (Name "main") /\
  fetch_training_data (Name "") = fetch_merge_save (Name "") /\
  (s <> "all" -> s <> "main" -> s <> "" ->
   (forall id, In id valid_leagues -> String.length id <> 1) ->
   fetch_training_data (Name s) = Raise ValueError).
Proof.
  split; [reflexivity|]. split; [reflexivity|]. split; [reflexivity|].
  intros Hall Hmain Hne Hlen.
  unfold TrainingData.fetch_training_data. cbn [in_all_main elements].
  apply String.eqb_neq in Hall, Hmain. rewrite Hall, Hmain. cbn [orb negb andb].
  destruct s as [|c s]; [congruence|].
  cbn [String.list_ascii_of_string map forallb].
  assert (Hc : mem (String.String c String.EmptyString) valid_leagues
               = false).
  { apply mem_false. intros Hin. now apply (Hlen _ Hin). }
  now rewrite Hc.
Qed.

End Fetch.

Lemma drop_spec (names columns X_columns : list str) :
  drop names columns = Some X_columns ->
  forall c, In c X_columns <-> In c columns /\ ~ In c names.
Proof.
  unfold drop. destruct (forallb _ names); [|discriminate].
  intros [= <-] c. rewrite filter_In, negb_true_iff, mem_false. tauto.
Qed.

(** X22: when [load_modeling_data] can select the columns of [X], the
    first one is ['Day'], and every column of [X] is a column of the
    training data that is neither a goals column nor a maximum-odds
    column: the outcome never leaks into the features. *)
Theorem modeling_columns_day_first_no_outcome (columns X_columns : list str) :
  modeling_columns columns = Some X_columns ->
  hd_error X_columns = Some "Day" /\
  forall c, In c X_columns -> In c columns /\ ~ In c dropped_columns.
Proof.
  unfold modeling_columns.
  destruct (drop dropped_columns columns) as [kept|] eqn:Hd; [|discriminate].
  destruct (forallb _ _) eqn:Hf; [|discriminate].
  intros [= <-]. split; [reflexivity|].
  intros c Hc. rewrite forallb_mem in Hf.
  apply (drop_spec _ _ _ Hd). auto.
Qed.

(** X23: when ['Day'] is the last column of the training data, as
    [fetch_training_data] writes it, and the goals and maximum-odds columns
    are there, the columns of [X] are ['Day'] followed by all the other
    columns that are not dropped, in their order: the reordering moves the
    day to the front and loses no feature. *)
Theorem modeling_columns_rotates_day (others : list str) :
  (forall n, In n dropped_columns -> In n others) ->
  modeling_columns (others ++ ["Day"])
  = Some ("Day" :: filter (fun c => negb (mem c dropped_columns)) others).
Proof.
  intros Hpresent. unfold modeling_columns, drop.
  assert (Hall : forallb (fun n => mem n (others ++ ["Day"])) dropped_columns
                 = true).
  { apply forallb_mem. intros n Hn. apply in_or_app. auto. }
  rewrite Hall, filter_app.
  change (filter (fun c => negb (mem c dropped_columns)) ["Day"])
    with ["Day"].
  rewrite removelast_last.
  assert (Hsel : forallb
                   (fun c => mem c (filter (fun c => negb (mem c dropped_columns))
                                           others ++ ["Day"]))
                   ("Day" :: filter (fun c => negb (mem c dropped_columns))
                                    others) = true).
  { apply forallb_mem. intros c [<- | Hc]; apply in_or_app; simpl; auto. }
  now rewrite Hsel.
Qed.

(** X24: for a match whose two goal counts are recorded, row [i] of the
    target is 1 exactly when the match ended as predicted: for ['H'] when
    the home team scored more, for ['D'] when both scored the same, for
    ['A'] when the away team scored more.  A match with a missing goal
    count is labelled ['A']: its target is 1 for ['A'] and 0 for ['H'] and
    ['D'].  In both cases the three targets of a match add up to 1. *)
Theorem target_marks_the_result (goals : list (option Z * option Z))
        (i : nat) (g : option Z * option Z) :
  nth_error goals i = Some g ->
  (forall home away,
      g = (Some home, Some away) ->
      nth_error (target "H" goals) i
      = Some (if (home >? away)%Z then 1%Z else 0%Z) /\
      nth_error (target "D" goals) i
      = Some (if (home =? away)%Z then 1%Z else 0%Z) /\
      nth_error (target "A" goals) i
      = Some (if (home <? away)%Z then 1%Z else 0%Z)) /\
  (fst g = None \/ snd g = None ->
   nth_error (target "H" goals) i = Some 0%Z /\
   nth_error (target "D" goals) i = Some 0%Z /\
   nth_error (target "A" goals) i = Some 1%Z) /\
  exists h d a,
    nth_error (target "H" goals) i = Some h /\
    nth_error (target "D" goals) i = Some d /\
    nth_error (target "A" goals) i = Some a /\
    (h + d + a = 1)%Z.
Proof.
  intros Hi. unfold target.
  rewrite !(map_nth_error _ _ _ Hi).
  split; [|split].
  - intros home away ->. cbn [goal_difference match_result].
    destruct (Z.gtb_spec (home - away) 0) as [Hgt | Hle];
      [|destruct (Z.eqb_spec (home - away) 0) as [Heq | Hne]];
      destruct (Z.gtb_spec home away), (Z.eqb_spec home away),
        (Z.ltb_spec home away); try lia; cbn; repeat split.
  - intros Hmiss.
    assert (Hd : goal_difference g = None).
    { destruct g as [[h|] [a|]]; cbn [fst snd] in Hmiss;
        try reflexivity; destruct Hmiss; discriminate. }
    rewrite Hd. cbn. repeat split.
  - destruct (goal_difference g) as [z|]; cbn [match_result].
    + destruct (z >? 0)%Z; [|destruct (z =? 0)%Z]; cbn;
        do 3 eexists; repeat split.
    + cbn. do 3 eexists. repeat split.
Qed.

(** X25: choosing the odds fails with [KeyError] exactly when
    [predicted_result] is none of ['H'], ['A'], ['D']; otherwise the target
    of an outcome is returned with the maximum odds of that same
    outcome. *)
Theorem target_and_odds_by_outcome {V : Type} (predicted_result : str)
        (goals : list (option Z * option Z))
        (home_odds away_odds draw_odds : list V) :
  (target_and_odds predicted_result goals home_odds away_odds draw_odds
   = None <->
   predicted_result <> "H" /\ predicted_result <> "A" /\
   predicted_result <> "D") /\
  target_and_odds "H" goals home_odds away_odds draw_odds
  = Some (target "H" goals, home_odds) /\
  target_and_odds "A" goals home_odds away_odds draw_odds
  = Some (target "A" goals, away_odds) /\
  target_and_odds "D" goals home_odds away_odds draw_odds
  = Some (target "D" goals, draw_odds).
Proof.
  split; [|repeat split].
  unfold target_and_odds, odds_column.
  destruct (String.eqb_spec predicted_result "H") as [-> | HH].
  - split; [discriminate | intros (H & _); congruence].
  - destruct (String.eqb_spec predicted_result "A") as [-> | HA].
    + split; [discriminate | intros (_ & H & _); congruence].
    + destruct (String.eqb_spec predicted_result "D") as [-> | HD].
      * split; [discriminate | intros (_ & _ & H); congruence].
      * split; auto.
Qed.

Lemma fetch_checks_every_id_witness :
  fetch_training_data two_leagues fetch_nothing (Ids ["E0"; "XX"])
  = Raise ValueError.
Proof.
  apply (proj2 (fetch_checks_every_id two_leagues fetch_nothing
                  ["E0"; "XX"])).
  exists "XX". split; [simpl; auto|].
  intros [H | [H | []]]; discriminate H.
Defined.

Lemma fetch_checks_string_by_character_witness :
  fetch_training_data two_leagues fetch_nothing (Name "E0")
  = Raise ValueError.
Proof.
  apply (proj2 (proj2 (proj2 (fetch_checks_string_by_character
                                two_leagues fetch_nothing "E0")))).
  - discriminate.
  - discriminate.
  - discriminate.
  - intros id [<- | [<- | []]]; discriminate.
Defined.

Lemma modeling_columns_day_first_no_outcome_witness :
  hd_error ["Day"; "HomeSPI"] = Some "Day" /\
  forall c, In c ["Day"; "HomeSPI"] ->
            In c (one_feature_file ++ ["Day"]) /\ ~ In c dropped_columns.
Proof.
  apply (modeling_columns_day_first_no_outcome
           (one_feature_file ++ ["Day"]) ["Day"; "HomeSPI"]).
  reflexivity.
Defined.

Lemma modeling_columns_rotates_day_witness :
  modeling_columns (one_feature_file ++ ["Day"])
  = Some ("Day" :: filter (fun c => negb (mem c dropped_columns))
                          one_feature_file).
Proof.
  apply (modeling_columns_rotates_day one_feature_file).
  intros n Hn. simpl in Hn.
  repeat (destruct Hn as [<- | Hn]; [simpl; tauto|]). contradiction.
Defined.

Lemma target_marks_the_result_witness :
  nth_error (target "H" [(Some 2, Some 1); (Some 0, None)]%Z) 1 = Some 0%Z /\
  nth_error (target "D" [(Some 2, Some 1); (Some 0, None)]%Z) 1 = Some 0%Z /\
  nth_error (target "A" [(Some 2, Some 1); (Some 0, None)]%Z) 1 = Some 1%Z.
Proof.
  apply (proj1 (proj2 (target_marks_the_result
                         [(Some 2, Some 1); (Some 0, None)]%Z 1
                         (Some 0%Z, None) eq_refl))).
  right. reflexivity.
Defined.

Lemma target_and_odds_by_outcome_witness :
  target_and_odds "X" [(Some 2, Some 1); (Some 0, Some 0)]%Z
                  [3%Z; 2%Z] [4%Z; 5%Z] [3%Z; 3%Z]
  = None.
Proof.
  apply (proj2 (proj1 (target_and_odds_by_outcome
                         "X" [(Some 2, Some 1); (Some 0, Some 0)]%Z
                         [3%Z; 2%Z] [4%Z; 5%Z] [3%Z; 3%Z]))).
  repeat split; discriminate.
Defined.

End DataFacts.
